(** * python-cachetclient: a shallow embedding of the client core

    The development follows the two source modules:
    - [cachetclient/client.py]: class [CachetClient] (construction, [_request]
      and the four verb helpers);
    - [cachetclient/cachet.py]: the [api_token_required] decorator,
      [check_required_args], the base class [Cachet] and the eight resource
      classes.

    Python objects are modelled by the type [pyval]; a Python [dict] is an
    insertion-ordered association list.  Methods run in a state-and-exception
    monad whose state holds the instance ([self]) and the wire (every HTTP
    request handed to the session so far).  What the code borrows from the
    interpreter and from third-party packages ([%s] formatting, [json.dumps],
    [requests.Session.request]) is the interface [Runtime]. *)

From Stdlib Require Import String Ascii List ZArith Bool Lia DecimalString.
Import ListNotations.
Open Scope string_scope.

#[local] Set Warnings "-register-all".

(** ** Python values *)

Inductive pyval : Type :=
| PNone
| PBool (b : bool)
| PInt (n : Z)
| PFloat (repr : string)
| PStr (s : string)
| PList (items : list pyval)
| PDict (items : list (string * pyval)).

(** A [dict] with string keys, in insertion order. *)
Definition dict : Type := list (string * pyval).

(** [v is None] *)
Definition is_none (v : pyval) : bool :=
  match v with PNone => true | _ => false end.

(** [d.get(k)] as an option: [None] is Python's [KeyError] on [d[k]]. *)
Fixpoint dict_get (k : string) (d : dict) : option pyval :=
  match d with
  | [] => None
  | (k', v) :: d' => if String.eqb k k' then Some v else dict_get k d'
  end.

(** [k in d] *)
Definition dict_contains (k : string) (d : dict) : bool :=
  match dict_get k d with Some _ => true | None => false end.

(** [d.get(k, dflt)] *)
Definition dict_get_default (k : string) (dflt : pyval) (d : dict) : pyval :=
  match dict_get k d with Some v => v | None => dflt end.

(** [d[k] = v]: an existing key keeps its position, a new key goes last. *)
Fixpoint dict_setitem (k : string) (v : pyval) (d : dict) : dict :=
  match d with
  | [] => [(k, v)]
  | (k', v') :: d' =>
      if String.eqb k k' then (k, v) :: d' else (k', v') :: dict_setitem k v d'
  end.

(** [d.setdefault(k, v)] (the returned value is never used by the code). *)
Definition dict_setdefault (k : string) (v : pyval) (d : dict) : dict :=
  if dict_contains k d then d else dict_setitem k v d.

(** ** HTTP requests and responses, as the [requests] package presents them *)

(** One call [session.request(method, url, **kwargs)]. *)
Record request : Type := mk_request {
  req_method : string;
  req_url : string;
  req_kwargs : dict
}.

(** A [requests.Response]: [json] is the outcome of [resp.json()], with
    [None] standing for the [ValueError] it raises on an undecodable body. *)
Record response : Type := mk_response {
  status_code : Z;
  text : string;
  json : option pyval
}.

(** [resp.ok]: [raise_for_status] raises exactly for 400 <= status < 600. *)
Definition ok (r : response) : bool :=
  negb ((400 <=? status_code r)%Z && (status_code r <? 600)%Z).

(** ** Exceptions *)

Inductive exn : Type :=
| KeyError (msg : string)
| AttributeError (msg : string)
| TypeError (msg : string)
| UnimplementedException
| HTTPError (resp : response)
| RequestException (msg : string).

Inductive result (A : Type) : Type :=
| Ok (a : A)
| Raise (e : exn).
Arguments Ok {A} a.
Arguments Raise {A} e.

(** The spec's error taxonomy, as the exceptions the code raises. *)
Definition ConfigurationError : exn := KeyError "Cachet API endpoint is required".
Definition AuthRequired : exn := AttributeError "Parameter api_token is required.".
Definition MissingArgument (arg : string) : exn :=
  KeyError ("Required argument: " ++ arg).

(** ** The runtime the client is linked against *)

Class Runtime : Type := {
  (** ['%s' % v] *)
  py_format : pyval -> string;
  (** [json.dumps(v, indent=i)] *)
  json_dumps : option nat -> pyval -> string;
  (** [session.request]: the reply to a request given what the session sent
      before it, or a transport failure (connection error, timeout). *)
  http_request : list request -> request -> string + response
}.

(** ** Instances and the method monad *)

Record CachetClient : Type := mk_client {
  user_agent : string;
  endpoint : pyval;
  api_token : pyval;
  timeout : pyval;
  verify : pyval
}.

Record state : Type := mk_state {
  self : CachetClient;
  wire : list request
}.

Definition M (A : Type) : Type := state -> result A * state.

Definition ret {A} (a : A) : M A := fun st => (Ok a, st).

Definition raise {A} (e : exn) : M A := fun st => (Raise e, st).

Definition bind {A B} (m : M A) (k : A -> M B) : M B :=
  fun st =>
    match m st with
    | (Ok a, st') => k a st'
    | (Raise e, st') => (Raise e, st')
    end.

Notation "x <- m ;; k" := (bind m (fun x => k))
  (at level 61, m at next level, right associativity).
Notation "m ;;; k" := (bind m (fun _ => k))
  (at level 61, right associativity).

Definition get_self : M CachetClient := fun st => (Ok (self st), st).

Definition lift {A} (r : result A) : M A := fun st => (r, st).

(** [self.http.request(method, url, **kwargs)] *)
Definition http_send `{Runtime} (method url : string) (kwargs : dict) : M response :=
  fun st =>
    let req := mk_request method url kwargs in
    let st' := mk_state (self st) (wire st ++ [req]) in
    match http_request (wire st) req with
    | inl err => (Raise (RequestException err), st')
    | inr resp => (Ok resp, st')
    end.

(** ** client.py: class CachetClient *)

(** [__init__(self, **kwargs)]; the constructor runs over the wire alone. *)
Definition __init__ (kwargs : dict) (w : list request)
  : result CachetClient * list request :=
  match dict_get "endpoint" kwargs with
  | None => (Raise (KeyError "Cachet API endpoint is required"), w)
  | Some ep =>
      (Ok (mk_client "python-cachetclient" ep
             (dict_get_default "api_token" PNone kwargs)
             (dict_get_default "timeout" PNone kwargs)
             (dict_get_default "verify" PNone kwargs)), w)
  end.

(** [kwargs['headers'][k] = v] *)
Definition set_header (k : string) (v : pyval) (kwargs : dict) : result dict :=
  match dict_get "headers" kwargs with
  | Some (PDict h) =>
      Ok (dict_setitem "headers" (PDict (dict_setitem k v h)) kwargs)
  | Some _ => Raise (TypeError "object does not support item assignment")
  | None => Raise (KeyError "headers")
  end.

(** [resp.raise_for_status()] *)
Definition raise_for_status (resp : response) : M unit :=
  if ok resp then ret tt else raise (HTTPError resp).

Definition _request `{Runtime} (url method : string) (kwargs : dict)
  : M (response * pyval) :=
  me <- get_self ;;
  let kwargs :=
    if is_none (timeout me) then kwargs
    else dict_setdefault "timeout" (timeout me) kwargs in
  let kwargs :=
    if is_none (verify me) then kwargs
    else dict_setdefault "verify" (verify me) kwargs in
  let kwargs :=
    dict_setdefault "headers" (dict_get_default "headers" (PDict []) kwargs) kwargs in
  kwargs <- lift (set_header "User-Agent" (PStr (user_agent me)) kwargs) ;;
  kwargs <- lift (set_header "Accept" (PStr "application/json") kwargs) ;;
  kwargs <- lift (set_header "Content-Type" (PStr "application/json") kwargs) ;;
  kwargs <- (if is_none (api_token me) then ret kwargs
             else lift (set_header "X-Cachet-Token" (api_token me) kwargs)) ;;
  let kwargs :=
    match dict_get "data" kwargs with
    | Some d => dict_setitem "data" (PStr (json_dumps None d)) kwargs
    | None => kwargs
    end in
  resp <- http_send method url kwargs ;;
  (if negb (ok resp) then raise_for_status resp else ret tt) ;;;
  let body := match json resp with Some v => v | None => PNone end in
  ret (resp, body).

(** ["%s/%s" % (self.endpoint, path)] *)
Definition url_of `{Runtime} (me : CachetClient) (path : string) : string :=
  py_format (endpoint me) ++ "/" ++ path.

Definition _delete `{Runtime} (path : string) (kwargs : dict) : M pyval :=
  me <- get_self ;;
  _ <- _request (url_of me path) "DELETE" kwargs ;;
  ret (PBool true).

Definition _get `{Runtime} (path : string) (kwargs : dict) : M pyval :=
  me <- get_self ;;
  rd <- _request (url_of me path) "GET" kwargs ;;
  ret (PStr (json_dumps (Some 2) (snd rd))).

Definition _post `{Runtime} (path : string) (kwargs : dict) : M pyval :=
  me <- get_self ;;
  rd <- _request (url_of me path) "POST" kwargs ;;
  ret (PStr (json_dumps (Some 2) (snd rd))).

Definition _put `{Runtime} (path : string) (kwargs : dict) : M pyval :=
  me <- get_self ;;
  rd <- _request (url_of me path) "PUT" kwargs ;;
  ret (PStr (json_dumps (Some 2) (snd rd))).

(** ** cachet.py: the decorator and the required-argument check *)

(** The body of the [try] block of [api_token_required]. *)
Definition token_probe (me : CachetClient) : result unit :=
  if is_none (api_token me)
  then Raise (AttributeError "Parameter api_token is required.")
  else Ok tt.

(** [api_token_required(f, *args, **kwargs)], as the decorated method calls
    it: [f] is the function under the decorator, [args] is the instance (the
    state) and the positional arguments, which the model keeps inside [f],
    and [kwargs] are the caller's keyword arguments.  A keyword named [f]
    collides with the first parameter, so that the call itself raises
    [TypeError] before the body runs.  In the body the [except
    AttributeError] clause re-raises under the same message, every other
    outcome of the probe goes through, and then [f] is called on the same
    arguments. *)
Definition api_token_required {A} (f : dict -> M A) (kwargs : dict) : M A :=
  if dict_contains "f" kwargs
  then raise (TypeError
                "api_token_required() got multiple values for argument 'f'")
  else
    me <- get_self ;;
    match token_probe me with
    | Raise (AttributeError _) =>
        raise (AttributeError "Parameter api_token is required.")
    | Raise e => raise e
    | Ok _ => f kwargs
    end.

Fixpoint check_required_args (required_args : list string) (args : dict)
  : result bool :=
  match required_args with
  | [] => Ok true
  | arg :: rest =>
      if dict_contains arg args then check_required_args rest args
      else Raise (KeyError ("Required argument: " ++ arg))
  end.

(** [d[k]] *)
Definition getitem (k : string) (d : dict) : result pyval :=
  match dict_get k d with
  | Some v => Ok v
  | None => Raise (KeyError k)
  end.

(** [f(path, data=kwargs)] passes the one-key dict [{'data': kwargs}]. *)
Definition data_kw (kwargs : dict) : dict := [("data", PDict kwargs)].

(** ** cachet.py: the base class and the resource classes *)

Module Cachet.
Definition __init__ (kwargs : dict) (w : list request) := __init__ kwargs w.
Definition delete (kwargs : dict) : M pyval := raise UnimplementedException.
Definition get (kwargs : dict) : M pyval := raise UnimplementedException.
Definition post (kwargs : dict) : M pyval := raise UnimplementedException.
Definition put (kwargs : dict) : M pyval := raise UnimplementedException.
End Cachet.

Module Ping.
Definition __init__ (kwargs : dict) (w : list request) := Cachet.__init__ kwargs w.
Definition delete : dict -> M pyval := Cachet.delete.
Definition get `{Runtime} (kwargs : dict) : M pyval := _get "ping" [].
Definition post : dict -> M pyval := Cachet.post.
Definition put : dict -> M pyval := Cachet.put.
End Ping.

Module Version.
Definition __init__ (kwargs : dict) (w : list request) := Cachet.__init__ kwargs w.
Definition delete : dict -> M pyval := Cachet.delete.
Definition get `{Runtime} (kwargs : dict) : M pyval := _get "version" [].
Definition post : dict -> M pyval := Cachet.post.
Definition put : dict -> M pyval := Cachet.put.
End Version.

(** For a decorated method [m], [m_wrapped] is the function written under
    [@api_token_required] (Python keeps it as [m.__wrapped__]) and [m] is
    what the class ends up with.  [delete] takes its ids by position, so the
    decorator gets no keyword arguments from it. *)

Module Components.
Definition __init__ (kwargs : dict) (w : list request) := Cachet.__init__ kwargs w.
Definition delete_wrapped `{Runtime} (id : pyval) : M pyval :=
  _delete ("components/" ++ py_format id) [].
Definition delete `{Runtime} (id : pyval) : M pyval :=
  api_token_required (fun _ => delete_wrapped id) [].
Definition get `{Runtime} (id : pyval) (kwargs : dict) : M pyval :=
  if negb (is_none id) then _get ("components/" ++ py_format id) []
  else _get "components" (data_kw kwargs).
Definition post_wrapped `{Runtime} (kwargs : dict) : M pyval :=
  let kwargs :=
    dict_setdefault "enabled" (dict_get_default "enabled" (PBool true) kwargs)
      kwargs in
  let required_args := ["name"; "status"; "enabled"] in
  _ <- lift (check_required_args required_args kwargs) ;;
  _post "components" (data_kw kwargs).
Definition post `{Runtime} (kwargs : dict) : M pyval :=
  api_token_required post_wrapped kwargs.
Definition put_wrapped `{Runtime} (kwargs : dict) : M pyval :=
  let required_args := ["id"] in
  _ <- lift (check_required_args required_args kwargs) ;;
  id <- lift (getitem "id" kwargs) ;;
  _put ("components/" ++ py_format id) (data_kw kwargs).
Definition put `{Runtime} (kwargs : dict) : M pyval :=
  api_token_required put_wrapped kwargs.
End Components.

Module Groups.
Definition __init__ (kwargs : dict) (w : list request) := Cachet.__init__ kwargs w.
Definition delete_wrapped `{Runtime} (id : pyval) : M pyval :=
  _delete ("components/groups/" ++ py_format id) [].
Definition delete `{Runtime} (id : pyval) : M pyval :=
  api_token_required (fun _ => delete_wrapped id) [].
Definition get `{Runtime} (id : pyval) (kwargs : dict) : M pyval :=
  if negb (is_none id)
  then _get ("components/groups/" ++ py_format id) (data_kw kwargs)
  else _get "components/groups" (data_kw kwargs).
Definition post_wrapped `{Runtime} (kwargs : dict) : M pyval :=
  let required_args := ["name"] in
  _ <- lift (check_required_args required_args kwargs) ;;
  _post "components/groups" (data_kw kwargs).
Definition post `{Runtime} (kwargs : dict) : M pyval :=
  api_token_required post_wrapped kwargs.
Definition put_wrapped `{Runtime} (kwargs : dict) : M pyval :=
  let required_args := ["id"] in
  _ <- lift (check_required_args required_args kwargs) ;;
  id <- lift (getitem "id" kwargs) ;;
  _put ("components/groups/" ++ py_format id) (data_kw kwargs).
Definition put `{Runtime} (kwargs : dict) : M pyval :=
  api_token_required put_wrapped kwargs.
End Groups.

Module Incidents.
Definition __init__ (kwargs : dict) (w : list request) := Cachet.__init__ kwargs w.
Definition delete_wrapped `{Runtime} (id : pyval) : M pyval :=
  _delete ("incidents/" ++ py_format id) [].
Definition delete `{Runtime} (id : pyval) : M pyval :=
  api_token_required (fun _ => delete_wrapped id) [].
Definition get `{Runtime} (id : pyval) (kwargs : dict) : M pyval :=
  if negb (is_none id)
  then _get ("incidents/" ++ py_format id) (data_kw kwargs)
  else _get "incidents" (data_kw kwargs).
Definition post_wrapped `{Runtime} (kwargs : dict) : M pyval :=
  let kwargs :=
    dict_setdefault "visible" (dict_get_default "visible" (PBool true) kwargs)
      kwargs in
  let kwargs :=
    dict_setdefault "notify" (dict_get_default "notify" (PBool false) kwargs)
      kwargs in
  let required_args := ["name"; "message"; "status"; "visible"; "notify"] in
  _ <- lift (check_required_args required_args kwargs) ;;
  _post "incidents" (data_kw kwargs).
Definition post `{Runtime} (kwargs : dict) : M pyval :=
  api_token_required post_wrapped kwargs.
Definition put_wrapped `{Runtime} (kwargs : dict) : M pyval :=
  let required_args := ["id"] in
  _ <- lift (check_required_args required_args kwargs) ;;
  id <- lift (getitem "id" kwargs) ;;
  _put ("incidents/" ++ py_format id) (data_kw kwargs).
Definition put `{Runtime} (kwargs : dict) : M pyval :=
  api_token_required put_wrapped kwargs.
End Incidents.

Module Metrics.
Definition __init__ (kwargs : dict) (w : list request) := Cachet.__init__ kwargs w.
Definition delete_wrapped `{Runtime} (id : pyval) : M pyval :=
  _delete ("metrics/" ++ py_format id) [].
Definition delete `{Runtime} (id : pyval) : M pyval :=
  api_token_required (fun _ => delete_wrapped id) [].
Definition get `{Runtime} (id : pyval) (kwargs : dict) : M pyval :=
  if negb (is_none id)
  then _get ("metrics/" ++ py_format id) (data_kw kwargs)
  else _get "metrics" (data_kw kwargs).
Definition post_wrapped `{Runtime} (kwargs : dict) : M pyval :=
  let kwargs :=
    dict_setdefault "default_value"
      (dict_get_default "default_value" (PInt 0) kwargs) kwargs in
  let required_args := ["name"; "suffix"; "description"; "default_value"] in
  _ <- lift (check_required_args required_args kwargs) ;;
  _post "metrics" (data_kw kwargs).
Definition post `{Runtime} (kwargs : dict) : M pyval :=
  api_token_required post_wrapped kwargs.
Definition put : dict -> M pyval := Cachet.put.
End Metrics.

Module Points.
Definition __init__ (kwargs : dict) (w : list request) := Cachet.__init__ kwargs w.
Definition delete_wrapped `{Runtime} (metric_id point_id : pyval) : M pyval :=
  _delete ("metrics/" ++ py_format metric_id ++ "/points/" ++ py_format point_id)
    [].
Definition delete `{Runtime} (metric_id point_id : pyval) : M pyval :=
  api_token_required (fun _ => delete_wrapped metric_id point_id) [].
Definition get `{Runtime} (metric_id : pyval) (kwargs : dict) : M pyval :=
  if is_none metric_id
  then raise (AttributeError "metric_id is required to get metric points.")
  else _get ("metrics/" ++ py_format metric_id ++ "/points") (data_kw kwargs).
Definition post_wrapped `{Runtime} (kwargs : dict) : M pyval :=
  let required_args := ["id"; "value"] in
  _ <- lift (check_required_args required_args kwargs) ;;
  id <- lift (getitem "id" kwargs) ;;
  _post ("metrics/" ++ py_format id ++ "/points") (data_kw kwargs).
Definition post `{Runtime} (kwargs : dict) : M pyval :=
  api_token_required post_wrapped kwargs.
Definition put : dict -> M pyval := Cachet.put.
End Points.

Module Subscribers.
Definition __init__ (kwargs : dict) (w : list request) := Cachet.__init__ kwargs w.
Definition delete_wrapped `{Runtime} (id : pyval) : M pyval :=
  _delete ("subscribers/" ++ py_format id) [].
Definition delete `{Runtime} (id : pyval) : M pyval :=
  api_token_required (fun _ => delete_wrapped id) [].
Definition get `{Runtime} (kwargs : dict) : M pyval :=
  _get "subscribers" (data_kw kwargs).
Definition post_wrapped `{Runtime} (kwargs : dict) : M pyval :=
  let required_args := ["email"] in
  _ <- lift (check_required_args required_args kwargs) ;;
  _post "subscribers" (data_kw kwargs).
Definition post `{Runtime} (kwargs : dict) : M pyval :=
  api_token_required post_wrapped kwargs.
Definition put : dict -> M pyval := Cachet.put.
End Subscribers.

(** ** The eight resources under one interface *)

Inductive resource : Type :=
| RPing | RVersion | RComponents | RGroups
| RIncidents | RMetrics | RPoints | RSubscribers.

(** The arguments each class's [get] and [delete] take; [post] and [put]
    take keyword arguments everywhere.  An omitted [id] is [PNone], its
    default in the source. *)
Definition get_args (r : resource) : Type :=
  match r with
  | RPing | RVersion | RSubscribers => dict
  | _ => (pyval * dict)%type
  end.

Definition delete_args (r : resource) : Type :=
  match r with
  | RPing | RVersion => dict
  | RPoints => (pyval * pyval)%type
  | _ => pyval
  end.

Definition res_get `{Runtime} (r : resource) : get_args r -> M pyval :=
  match r return get_args r -> M pyval with
  | RPing => Ping.get
  | RVersion => Version.get
  | RComponents => fun a => Components.get (fst a) (snd a)
  | RGroups => fun a => Groups.get (fst a) (snd a)
  | RIncidents => fun a => Incidents.get (fst a) (snd a)
  | RMetrics => fun a => Metrics.get (fst a) (snd a)
  | RPoints => fun a => Points.get (fst a) (snd a)
  | RSubscribers => Subscribers.get
  end.

Definition res_post `{Runtime} (r : resource) : dict -> M pyval :=
  match r with
  | RPing => Ping.post
  | RVersion => Version.post
  | RComponents => Components.post
  | RGroups => Groups.post
  | RIncidents => Incidents.post
  | RMetrics => Metrics.post
  | RPoints => Points.post
  | RSubscribers => Subscribers.post
  end.

Definition res_put `{Runtime} (r : resource) : dict -> M pyval :=
  match r with
  | RPing => Ping.put
  | RVersion => Version.put
  | RComponents => Components.put
  | RGroups => Groups.put
  | RIncidents => Incidents.put
  | RMetrics => Metrics.put
  | RPoints => Points.put
  | RSubscribers => Subscribers.put
  end.

Definition res_delete `{Runtime} (r : resource) : delete_args r -> M pyval :=
  match r return delete_args r -> M pyval with
  | RPing => Ping.delete
  | RVersion => Version.delete
  | RComponents => Components.delete
  | RGroups => Groups.delete
  | RIncidents => Incidents.delete
  | RMetrics => Metrics.delete
  | RPoints => fun a => Points.delete (fst a) (snd a)
  | RSubscribers => Subscribers.delete
  end.

(** Every class of the two modules, and its constructor. *)
Inductive class : Type :=
| KCachetClient
| KCachet
| KResource (r : resource).

Definition construct (k : class) : dict -> list request -> result CachetClient * list request :=
  match k with
  | KCachetClient => __init__
  | KCachet => Cachet.__init__
  | KResource RPing => Ping.__init__
  | KResource RVersion => Version.__init__
  | KResource RComponents => Components.__init__
  | KResource RGroups => Groups.__init__
  | KResource RIncidents => Incidents.__init__
  | KResource RMetrics => Metrics.__init__
  | KResource RPoints => Points.__init__
  | KResource RSubscribers => Subscribers.__init__
  end.

(** ** A reference runtime

    One executable instance of [Runtime], used to run the client on concrete
    calls.  It renders values as CPython does for [None], booleans, integers
    and strings of printable ASCII without quotes or backslashes, and
    containers of those. *)

Definition dquote : string := String (ascii_of_nat 34) EmptyString.
Definition squote : string := String (ascii_of_nat 39) EmptyString.
Definition newline : string := String (ascii_of_nat 10) EmptyString.

Definition z_to_string (n : Z) : string := NilZero.string_of_int (Z.to_int n).

(** [repr(v)] *)
Fixpoint py_repr (v : pyval) : string :=
  match v with
  | PNone => "None"
  | PBool true => "True"
  | PBool false => "False"
  | PInt n => z_to_string n
  | PFloat r => r
  | PStr s => squote ++ s ++ squote
  | PList [] => "[]"
  | PList (x :: xs) =>
      "[" ++ py_repr x ++
      (fix rest (l : list pyval) : string :=
         match l with
         | [] => EmptyString
         | y :: l' => ", " ++ py_repr y ++ rest l'
         end) xs ++ "]"
  | PDict [] => "{}"
  | PDict ((k, x) :: xs) =>
      "{" ++ squote ++ k ++ squote ++ ": " ++ py_repr x ++
      (fix rest (l : list (string * pyval)) : string :=
         match l with
         | [] => EmptyString
         | (k', y) :: l' =>
             ", " ++ squote ++ k' ++ squote ++ ": " ++ py_repr y ++ rest l'
         end) xs ++ "}"
  end.

(** [str(v)] *)
Definition py_str (v : pyval) : string :=
  match v with
  | PStr s => s
  | _ => py_repr v
  end.

Fixpoint json_escape (s : string) : string :=
  match s with
  | EmptyString => EmptyString
  | String c s' =>
      (if Ascii.eqb c (ascii_of_nat 34) then "\" ++ dquote
       else if Ascii.eqb c (ascii_of_nat 92) then "\\"
       else if Ascii.eqb c (ascii_of_nat 10) then "\n"
       else if Ascii.eqb c (ascii_of_nat 13) then "\r"
       else if Ascii.eqb c (ascii_of_nat 9) then "\t"
       else String c EmptyString) ++ json_escape s'
  end.

Definition json_string (s : string) : string := dquote ++ json_escape s ++ dquote.

Fixpoint spaces (n : nat) : string :=
  match n with
  | O => EmptyString
  | S n' => String (ascii_of_nat 32) (spaces n')
  end.

(** Line break and indentation in front of an item at nesting depth [lvl]. *)
Definition json_break (indent : option nat) (lvl : nat) : string :=
  match indent with
  | None => EmptyString
  | Some w => newline ++ spaces (w * lvl)
  end.

Definition json_item_sep (indent : option nat) (lvl : nat) : string :=
  match indent with
  | None => ", "
  | Some _ => "," ++ json_break indent lvl
  end.

Fixpoint json_encode (indent : option nat) (lvl : nat) (v : pyval) : string :=
  match v with
  | PNone => "null"
  | PBool true => "true"
  | PBool false => "false"
  | PInt n => z_to_string n
  | PFloat r => r
  | PStr s => json_string s
  | PList [] => "[]"
  | PList (x :: xs) =>
      "[" ++ json_break indent (S lvl) ++ json_encode indent (S lvl) x ++
      (fix rest (l : list pyval) : string :=
         match l with
         | [] => EmptyString
         | y :: l' =>
             json_item_sep indent (S lvl) ++ json_encode indent (S lvl) y ++ rest l'
         end) xs ++ json_break indent lvl ++ "]"
  | PDict [] => "{}"
  | PDict ((k, x) :: xs) =>
      "{" ++ json_break indent (S lvl) ++ json_string k ++ ": " ++
      json_encode indent (S lvl) x ++
      (fix rest (l : list (string * pyval)) : string :=
         match l with
         | [] => EmptyString
         | (k', y) :: l' =>
             json_item_sep indent (S lvl) ++ json_string k' ++ ": " ++
             json_encode indent (S lvl) y ++ rest l'
         end) xs ++ json_break indent lvl ++ "}"
  end.

(** The reply of the stub service: [204] with an empty body to a DELETE,
    [200] with a small JSON document to anything else. *)
Definition echo_body : pyval :=
  PDict [("data", PDict [("id", PInt 42); ("name", PStr "X")])].

Definition stub_service (sent : list request) (req : request) : string + response :=
  if String.eqb (req_method req) "DELETE"
  then inr (mk_response 204 EmptyString None)
  else inr (mk_response 200 (json_encode None 0 echo_body) (Some echo_body)).

Definition stub_runtime : Runtime :=
  {| py_format := py_str;
     json_dumps := fun indent v => json_encode indent 0 v;
     http_request := stub_service |}.

(** A service that answers [503] with an HTML body to every request. *)
Definition down_runtime : Runtime :=
  {| py_format := py_str;
     json_dumps := fun indent v => json_encode indent 0 v;
     http_request := fun _ _ => inr (mk_response 503 "<html>down</html>" None) |}.

(** A service that answers [200] with an empty body to every request. *)
Definition blank_runtime : Runtime :=
  {| py_format := py_str;
     json_dumps := fun indent v => json_encode indent 0 v;
     http_request := fun _ _ => inr (mk_response 200 EmptyString None) |}.

(** A service that cannot be reached. *)
Definition offline_runtime : Runtime :=
  {| py_format := py_str;
     json_dumps := fun indent v => json_encode indent 0 v;
     http_request := fun _ _ => inl "connection refused" |}.

(** Sample instances and calls. *)
Definition anonymous : CachetClient :=
  mk_client "python-cachetclient" (PStr "http://host/api/v1") PNone PNone PNone.

Definition authenticated : CachetClient :=
  mk_client "python-cachetclient" (PStr "http://host/api/v1") (PStr "t") PNone PNone.

Definition empty_token : CachetClient :=
  mk_client "python-cachetclient" (PStr "http://host/api/v1") (PStr EmptyString)
    (PInt 5) (PBool false).

Definition fresh (me : CachetClient) : state := mk_state me [].

(** ** Calls, tables and closed forms used by the statements *)

(** Every call a caller can make on a resource instance. *)
Inductive call : Type :=
| Get (r : resource) (a : get_args r)
| Post (r : resource) (kwargs : dict)
| Put (r : resource) (kwargs : dict)
| Delete (r : resource) (a : delete_args r).

Definition invoke `{Runtime} (c : call) : M pyval :=
  match c with
  | Get r a => res_get r a
  | Post r kwargs => res_post r kwargs
  | Put r kwargs => res_put r kwargs
  | Delete r a => res_delete r a
  end.

Definition method_of (c : call) : string :=
  match c with
  | Get _ _ => "GET"
  | Post _ _ => "POST"
  | Put _ _ => "PUT"
  | Delete _ _ => "DELETE"
  end.

Definition is_delete (c : call) : bool :=
  match c with Delete _ _ => true | _ => false end.

(** The methods that carry [@api_token_required] in the source. *)
Definition token_gated (c : call) : bool :=
  match c with
  | Get _ _ => false
  | Post r _ =>
      match r with RPing | RVersion => false | _ => true end
  | Put r _ =>
      match r with RComponents | RGroups | RIncidents => true | _ => false end
  | Delete r _ =>
      match r with RPing | RVersion => false | _ => true end
  end.

(** The mutating verbs: [post], [put] and [delete]. *)
Definition mutating (c : call) : bool :=
  match c with Get _ _ => false | _ => true end.

(** The [TypeError] of a decorated method called with a keyword named [f]. *)
Definition KeywordCollision : exn :=
  TypeError "api_token_required() got multiple values for argument 'f'".

(** The keyword arguments a call hands to the decorator: those of [post]
    and [put]; [delete] has none. *)
Definition decorator_kwargs (c : call) : dict :=
  match c with
  | Post _ kwargs | Put _ kwargs => kwargs
  | _ => []
  end.

(** A decorated method called with a keyword named [f]. *)
Definition collides (c : call) : bool :=
  token_gated c && dict_contains "f" (decorator_kwargs c).

(** The function under the decorator, for the decorated methods; the method
    itself for the others. *)
Definition res_post_wrapped `{Runtime} (r : resource) : dict -> M pyval :=
  match r with
  | RPing => Ping.post
  | RVersion => Version.post
  | RComponents => Components.post_wrapped
  | RGroups => Groups.post_wrapped
  | RIncidents => Incidents.post_wrapped
  | RMetrics => Metrics.post_wrapped
  | RPoints => Points.post_wrapped
  | RSubscribers => Subscribers.post_wrapped
  end.

Definition res_put_wrapped `{Runtime} (r : resource) : dict -> M pyval :=
  match r with
  | RComponents => Components.put_wrapped
  | RGroups => Groups.put_wrapped
  | RIncidents => Incidents.put_wrapped
  | _ => res_put r
  end.

Definition res_delete_wrapped `{Runtime} (r : resource)
  : delete_args r -> M pyval :=
  match r return delete_args r -> M pyval with
  | RPing => Ping.delete
  | RVersion => Version.delete
  | RComponents => Components.delete_wrapped
  | RGroups => Groups.delete_wrapped
  | RIncidents => Incidents.delete_wrapped
  | RMetrics => Metrics.delete_wrapped
  | RPoints => fun a => Points.delete_wrapped (fst a) (snd a)
  | RSubscribers => Subscribers.delete_wrapped
  end.

Definition wrapped `{Runtime} (c : call) : M pyval :=
  match c with
  | Get r a => res_get r a
  | Post r kwargs => res_post_wrapped r kwargs
  | Put r kwargs => res_put_wrapped r kwargs
  | Delete r a => res_delete_wrapped r a
  end.

(** A [get] call written as [r.get(id, **kwargs)]; on the classes whose [get]
    has no [id] parameter a given [id] lands among the keyword arguments. *)
Definition call_get (r : resource) (id : pyval) (kwargs : dict) : get_args r :=
  match r return get_args r with
  | RPing | RVersion | RSubscribers =>
      if is_none id then kwargs else dict_setitem "id" id kwargs
  | _ => (id, kwargs)
  end.

(** The collection path of each resource. *)
Definition collection (r : resource) : string :=
  match r with
  | RPing => "ping"
  | RVersion => "version"
  | RComponents => "components"
  | RGroups => "components/groups"
  | RIncidents => "incidents"
  | RMetrics => "metrics"
  | RPoints => "metrics"
  | RSubscribers => "subscribers"
  end.

(** The path [get] asks for when it is given an identifier. *)
Definition item_path `{Runtime} (r : resource) (id : pyval) : string :=
  match r with
  | RPoints => "metrics/" ++ py_format id ++ "/points"
  | _ => collection r ++ "/" ++ py_format id
  end.

(** The [required_args] list of each [post] and [put]. *)
Definition post_required (r : resource) : list string :=
  match r with
  | RComponents => ["name"; "status"; "enabled"]
  | RGroups => ["name"]
  | RIncidents => ["name"; "message"; "status"; "visible"; "notify"]
  | RMetrics => ["name"; "suffix"; "description"; "default_value"]
  | RPoints => ["id"; "value"]
  | RSubscribers => ["email"]
  | _ => []
  end.

Definition put_required (r : resource) : list string :=
  match r with
  | RComponents | RGroups | RIncidents => ["id"]
  | _ => []
  end.

(** The keyword arguments of [post] once its defaults are in. *)
Definition with_default (k : string) (v : pyval) (kwargs : dict) : dict :=
  dict_setdefault k (dict_get_default k v kwargs) kwargs.

Definition post_defaults (r : resource) (kwargs : dict) : dict :=
  match r with
  | RComponents => with_default "enabled" (PBool true) kwargs
  | RIncidents =>
      with_default "notify" (PBool false) (with_default "visible" (PBool true) kwargs)
  | RMetrics => with_default "default_value" (PInt 0) kwargs
  | _ => kwargs
  end.

(** The first key of [required] that [kwargs] lacks. *)
Definition first_missing (required : list string) (kwargs : dict) : option string :=
  find (fun k => negb (dict_contains k kwargs)) required.

(** Whether a call gets as far as the transport: a [get] does, but for
    [Points.get] without an id; a decorated [post] or [put] does when it has
    no keyword named [f], the instance has a token and no required argument
    is missing; a decorated [delete] does when the instance has a token. *)
Definition complete (required : list string) (kwargs : dict) : bool :=
  match first_missing required kwargs with
  | Some _ => false
  | None => true
  end.

Definition sends (c : call) (st : state) : bool :=
  match c with
  | Get r a =>
      match r return get_args r -> bool with
      | RPoints => fun a => negb (is_none (fst a))
      | _ => fun _ => true
      end a
  | Post r kwargs =>
      token_gated c && negb (dict_contains "f" kwargs)
      && negb (is_none (api_token (self st)))
      && complete (post_required r) (post_defaults r kwargs)
  | Put r kwargs =>
      token_gated c && negb (dict_contains "f" kwargs)
      && negb (is_none (api_token (self st)))
      && complete (put_required r) kwargs
  | Delete _ _ =>
      token_gated c && negb (is_none (api_token (self st)))
  end.

(** A [headers] keyword that is there and is not a dict. *)
Definition bad_headers (kwargs : dict) : bool :=
  match dict_get "headers" kwargs with
  | None | Some (PDict _) => false
  | Some _ => true
  end.

Definition post_path `{Runtime} (r : resource) (kwargs : dict) : string :=
  match r with
  | RPoints => "metrics/" ++ py_format (dict_get_default "id" PNone kwargs) ++ "/points"
  | _ => collection r
  end.

Definition put_path `{Runtime} (r : resource) (kwargs : dict) : string :=
  collection r ++ "/" ++ py_format (dict_get_default "id" PNone kwargs).

(** The headers [_request] builds when the caller passed none. *)
Definition std_headers (me : CachetClient) : dict :=
  ([("User-Agent", PStr (user_agent me));
    ("Accept", PStr "application/json");
    ("Content-Type", PStr "application/json")]
   ++ (if is_none (api_token me) then [] else [("X-Cachet-Token", api_token me)]))%list.

Definition with_config (me : CachetClient) (kwargs : dict) : dict :=
  let kwargs :=
    if is_none (timeout me) then kwargs
    else dict_setdefault "timeout" (timeout me) kwargs in
  if is_none (verify me) then kwargs
  else dict_setdefault "verify" (verify me) kwargs.

Definition encode_data `{Runtime} (kwargs : dict) : dict :=
  match dict_get "data" kwargs with
  | Some d => dict_setitem "data" (PStr (json_dumps None d)) kwargs
  | None => kwargs
  end.

(** What reaches [session.request] for keyword arguments without [headers]. *)
Definition sent_kwargs `{Runtime} (me : CachetClient) (kwargs : dict) : dict :=
  encode_data (dict_setitem "headers" (PDict (std_headers me)) (with_config me kwargs)).

(** [body] of [_request]: the decoded document, [None] when undecodable. *)
Definition decoded (resp : response) : pyval :=
  match json resp with Some v => v | None => PNone end.

(** One round trip: the request goes on the wire, the reply decides. *)
Definition exchange `{Runtime} (method path : string) (kwargs : dict)
  (finish : pyval -> pyval) (st : state) : result pyval * state :=
  let req := mk_request method (url_of (self st) path) (sent_kwargs (self st) kwargs) in
  let st' := mk_state (self st) (wire st ++ [req]) in
  match http_request (wire st) req with
  | inl err => (Raise (RequestException err), st')
  | inr resp =>
      if ok resp then (Ok (finish (decoded resp)), st')
      else (Raise (HTTPError resp), st')
  end.

(** [json.dumps(data, indent=2)] for the readers, [True] for [delete]. *)
Definition finish_of `{Runtime} (c : call) : pyval -> pyval :=
  if is_delete c then fun _ => PBool true
  else fun data => PStr (json_dumps (Some 2) data).

(** The errors raised before any request is built. *)
Definition local_error (e : exn) : Prop :=
  match e with
  | KeyError _ | AttributeError _ | TypeError _ | UnimplementedException => True
  | _ => False
  end.

(** A [session.request] keyword [params] is how [requests] takes
    query-string parameters. *)
Definition query_params (req : request) : option pyval :=
  dict_get "params" (req_kwargs req).

Definition json_body_of (req : request) : option pyval :=
  dict_get "data" (req_kwargs req).

Definition header (name : string) (req : request) : option pyval :=
  match dict_get "headers" (req_kwargs req) with
  | Some (PDict h) => dict_get name h
  | _ => None
  end.

(** Either a call stops on a local error with the state untouched, or it
    makes exactly one round trip. *)
Inductive shape `{Runtime} (c : call) (st : state) : result pyval * state -> Prop :=
| shape_local e :
    local_error e -> shape c st (Raise e, st)
| shape_exchange path kwargs :
    dict_get "headers" kwargs = None ->
    shape c st (exchange (method_of c) path kwargs (finish_of c) st).

(** The readings of the spec that the code does not meet, kept as
    predicates so that they can be tested on concrete calls. *)

(** [get] without an id asks for the bare collection path and hands the
    keyword arguments over as query-string parameters. *)
Definition listing_forwards_query `{Runtime} (r : resource) (kwargs : dict)
  (st : state) : Prop :=
  exists req,
    wire (snd (res_get r (call_get r PNone kwargs) st)) = (wire st ++ [req])%list /\
    req_url req = url_of (self st) (collection r) /\
    query_params req = Some (PDict kwargs).

(** Every mutating call without a token fails with [AuthRequired], nothing
    being sent. *)
Definition gate_on_every_mutation `{Runtime} (c : call) (st : state) : Prop :=
  mutating c = true -> is_none (api_token (self st)) = true ->
  invoke c st = (Raise AuthRequired, st).

(** The required-argument check decides the outcome of [post] alone. *)
Definition required_check_decides `{Runtime} (r : resource) (kwargs : dict)
  (st : state) : Prop :=
  post_required r <> [] ->
  match first_missing (post_required r) (post_defaults r kwargs) with
  | Some k => res_post r kwargs st = (Raise (MissingArgument k), st)
  | None =>
      exists req,
        wire (snd (res_post r kwargs st)) = (wire st ++ [req])%list /\
        req_method req = "POST" /\
        req_url req = url_of (self st) (post_path r (post_defaults r kwargs))
  end.

(** ** Further tables and callers *)

(** A finer view of a call than [shape]: the keyword arguments a resource
    method hands to the verb helper are either none or the single [data]. *)
Inductive round_trip `{Runtime} (c : call) (st : state)
  : result pyval * state -> Prop :=
| round_trip_local e :
    local_error e -> round_trip c st (Raise e, st)
| round_trip_plain path :
    round_trip c st (exchange (method_of c) path [] (finish_of c) st)
| round_trip_data path d :
    round_trip c st (exchange (method_of c) path (data_kw d) (finish_of c) st).

(** The path each [delete] asks for. *)
Definition delete_path `{Runtime} (r : resource) : delete_args r -> string :=
  match r return delete_args r -> string with
  | RPing => fun _ => "ping"
  | RVersion => fun _ => "version"
  | RPoints =>
      fun a => "metrics/" ++ py_format (fst a) ++ "/points/" ++ py_format (snd a)
  | RComponents => fun a => "components/" ++ py_format a
  | RGroups => fun a => "components/groups/" ++ py_format a
  | RIncidents => fun a => "incidents/" ++ py_format a
  | RMetrics => fun a => "metrics/" ++ py_format a
  | RSubscribers => fun a => "subscribers/" ++ py_format a
  end.

(** The defaults each [post] fills in, in the order of its [setdefault]
    lines, and those of them the caller left out. *)
Definition default_table (r : resource) : dict :=
  match r with
  | RComponents => [("enabled", PBool true)]
  | RIncidents => [("visible", PBool true); ("notify", PBool false)]
  | RMetrics => [("default_value", PInt 0)]
  | _ => []
  end.

Definition missing_defaults (r : resource) (kwargs : dict) : dict :=
  filter (fun kv => negb (dict_contains (fst kv) kwargs)) (default_table r).

(** The headers [_request] sends when the caller passed the dict [h]. *)
Definition merged_headers (me : CachetClient) (h : dict) : dict :=
  let h :=
    dict_setitem "Content-Type" (PStr "application/json")
      (dict_setitem "Accept" (PStr "application/json")
         (dict_setitem "User-Agent" (PStr (user_agent me)) h)) in
  if is_none (api_token me) then h
  else dict_setitem "X-Cachet-Token" (api_token me) h.

(** The headers and the keyword arguments [_request] sends, whether or not
    the caller passed a [headers] dict. *)
Definition final_headers (me : CachetClient) (kwargs : dict) : dict :=
  match dict_get "headers" kwargs with
  | Some (PDict h) => merged_headers me h
  | _ => std_headers me
  end.

Definition request_kwargs `{Runtime} (me : CachetClient) (kwargs : dict) : dict :=
  encode_data
    (dict_setitem "headers" (PDict (final_headers me kwargs))
       (with_config me kwargs)).

(** A caller that makes the calls of [cs] one after the other on the same
    instance, catching what they raise. *)
Fixpoint calls_in_turn `{Runtime} (cs : list call) (st : state)
  : list (result pyval) * state :=
  match cs with
  | [] => ([], st)
  | c :: cs' =>
      let out := invoke c st in
      let rest := calls_in_turn cs' (snd out) in
      (fst out :: fst rest, snd rest)
  end.

(** [obj.method(...)] on an instance local to the caller: the wire is all
    that outlives the call. *)
Definition on_instance {A} (m : M A) (me : CachetClient) (w : list request)
  : result A * list request :=
  let out := m (mk_state me w) in (fst out, wire (snd out)).

Definition rbind {A B} (r : result A) (k : A -> result B) : result B :=
  match r with
  | Ok a => k a
  | Raise e => Raise e
  end.

(** [v[key]] for a string key: only a dict can be indexed that way.  The
    text of the [TypeError], which Python words by the type of [v], is not
    modelled. *)
Definition subscript (key : string) (v : pyval) : result pyval :=
  match v with
  | PDict d => getitem key d
  | _ => Raise (TypeError "object cannot be indexed by a string")
  end.

(** What a function of the handler script ends in: a value, an exception of
    the library, or the [ValueError] of [json.loads]. *)
Inductive script_result (A : Type) : Type :=
| Returned (a : A)
| Raised (e : exn)
| RaisedValueError.
Arguments Returned {A} a.
Arguments Raised {A} e.
Arguments RaisedValueError {A}.

(** ** contrib/sensu-cachet.py

    [ENDPOINT] and [API_TOKEN] are the module globals read from the
    configuration file; [json_loads] is [json.loads], [None] standing for
    the [ValueError] it raises. *)

Module sensu_cachet.

(** The keyword arguments [create_incident] reads, in evaluation order. *)
Definition incident_fields (kwargs : dict) : list string :=
  if dict_contains "component_id" kwargs
  then ["name"; "message"; "status"; "component_id"; "component_status"]
  else ["name"; "message"; "status"].

Definition create_incident `{Runtime} (ENDPOINT API_TOKEN : pyval)
  (kwargs : dict) (w : list request) : result pyval * list request :=
  match Incidents.__init__ [("endpoint", ENDPOINT); ("api_token", API_TOKEN)] w with
  | (Raise e, w1) => (Raise e, w1)
  | (Ok incidents, w1) =>
      let args :=
        if dict_contains "component_id" kwargs then
          rbind (getitem "name" kwargs) (fun name =>
          rbind (getitem "message" kwargs) (fun message =>
          rbind (getitem "status" kwargs) (fun status =>
          rbind (getitem "component_id" kwargs) (fun component_id =>
          rbind (getitem "component_status" kwargs) (fun component_status =>
          Ok [("name", name); ("message", message); ("status", status);
              ("component_id", component_id);
              ("component_status", component_status)])))))
        else
          rbind (getitem "name" kwargs) (fun name =>
          rbind (getitem "message" kwargs) (fun message =>
          rbind (getitem "status" kwargs) (fun status =>
          Ok [("name", name); ("message", message); ("status", status)]))) in
      match args with
      | Raise e => (Raise e, w1)
      | Ok args => on_instance (Incidents.post args) incidents w1
      end
  end.

Definition get_component `{Runtime} (json_loads : string -> option pyval)
  (ENDPOINT id : pyval) (w : list request)
  : script_result pyval * list request :=
  match Components.__init__ [("endpoint", ENDPOINT)] w with
  | (Raise e, w1) => (Raised e, w1)
  | (Ok components, w1) =>
      match on_instance (Components.get id []) components w1 with
      | (Raise e, w2) => (Raised e, w2)
      | (Ok (PStr s), w2) =>
          match json_loads s with
          | None => (RaisedValueError, w2)
          | Some component =>
              match subscript "data" component with
              | Ok v => (Returned v, w2)
              | Raise e => (Raised e, w2)
              end
          end
      | (Ok _, w2) =>
          (Raised (TypeError "the JSON object must be str, bytes or bytearray"), w2)
      end
  end.

End sensu_cachet.

(** What [create_incident] passes on to [Incidents.post]: the fields it reads
    and nothing else of its keyword arguments. *)
Definition incident_arguments (kwargs : dict) : dict :=
  map (fun k => (k, dict_get_default k PNone kwargs))
    (sensu_cachet.incident_fields kwargs).

(** The instance [get_component] works on, and the path it asks for. *)
Definition anonymous_at (ENDPOINT : pyval) : CachetClient :=
  mk_client "python-cachetclient" ENDPOINT PNone PNone PNone.

Definition component_path `{Runtime} (id : pyval) : string :=
  if is_none id then "components" else "components/" ++ py_format id.

(** A decoder that knows the documents of the stub services. *)
Definition stub_loads (s : string) : option pyval :=
  if String.eqb s (json_encode (Some 2) 0 echo_body) then Some echo_body
  else if String.eqb s (json_encode (Some 2) 0 PNone) then Some PNone
  else None.

(** ** Dictionaries *)

Lemma dict_get_setitem_same k v d :
  dict_get k (dict_setitem k v d) = Some v.
Proof.
  induction d as [|[k' v'] d IH]; simpl.
  - now rewrite String.eqb_refl.
  - destruct (String.eqb k k') eqn:E; simpl.
    + now rewrite String.eqb_refl.
    + now rewrite E.
Qed.

Lemma dict_get_setitem_other k k' v d :
  k <> k' -> dict_get k (dict_setitem k' v d) = dict_get k d.
Proof.
  intros Hne. induction d as [|[k0 v0] d IH]; simpl.
  - destruct (String.eqb_spec k k'); [contradiction | reflexivity].
  - destruct (String.eqb_spec k' k0) as [->|Hk]; simpl.
    + destruct (String.eqb_spec k k0); [contradiction | reflexivity].
    + now rewrite IH.
Qed.

Lemma dict_setitem_twice k v v' d :
  dict_setitem k v (dict_setitem k v' d) = dict_setitem k v d.
Proof.
  induction d as [|[k0 v0] d IH]; simpl.
  - now rewrite String.eqb_refl.
  - destruct (String.eqb k k0) eqn:E; simpl.
    + now rewrite String.eqb_refl.
    + now rewrite E, IH.
Qed.

Lemma dict_get_setdefault_other k k' v d :
  k <> k' -> dict_get k (dict_setdefault k' v d) = dict_get k d.
Proof.
  intros Hne. unfold dict_setdefault.
  destruct (dict_contains k' d); [reflexivity|].
  now apply dict_get_setitem_other.
Qed.

Lemma dict_get_with_default_same k v d :
  dict_get k (with_default k v d) = Some (dict_get_default k v d).
Proof.
  unfold with_default, dict_setdefault, dict_contains, dict_get_default.
  destruct (dict_get k d) eqn:E.
  - exact E.
  - apply dict_get_setitem_same.
Qed.

Lemma dict_get_with_default_other k k' v d :
  k <> k' -> dict_get k (with_default k' v d) = dict_get k d.
Proof. intros. unfold with_default. now apply dict_get_setdefault_other. Qed.

Lemma dict_contains_with_default k v d :
  dict_contains k (with_default k v d) = true.
Proof. unfold dict_contains. now rewrite dict_get_with_default_same. Qed.

Lemma dict_get_with_config k me d :
  k <> "timeout" -> k <> "verify" ->
  dict_get k (with_config me d) = dict_get k d.
Proof.
  intros H1 H2. unfold with_config.
  destruct (is_none (verify me)), (is_none (timeout me));
    repeat rewrite dict_get_setdefault_other by assumption; reflexivity.
Qed.

(** ** The transport in closed form *)

Section Transport.
Context {rt : Runtime}.

Lemma set_header_on k v h kwargs :
  dict_get "headers" kwargs = Some (PDict h) ->
  set_header k v kwargs
  = Ok (dict_setitem "headers" (PDict (dict_setitem k v h)) kwargs).
Proof. intros E. unfold set_header. now rewrite E. Qed.

Lemma _request_run url method kwargs st :
  dict_get "headers" kwargs = None ->
  _request url method kwargs st
  = let req := mk_request method url (sent_kwargs (self st) kwargs) in
    let st' := mk_state (self st) (wire st ++ [req]) in
    match http_request (wire st) req with
    | inl err => (Raise (RequestException err), st')
    | inr resp =>
        if ok resp then (Ok (resp, decoded resp), st')
        else (Raise (HTTPError resp), st')
    end.
Proof.
  intros Hh. unfold _request, sent_kwargs.
  fold (with_config (self st) kwargs).
  unfold bind at 1. unfold get_self at 1. cbv beta iota.
  fold (with_config (self st) kwargs).
  set (k := with_config (self st) kwargs).
  assert (Hk : dict_get "headers" k = None).
  { subst k. rewrite dict_get_with_config by discriminate. exact Hh. }
  assert (E0 : dict_setdefault "headers" (dict_get_default "headers" (PDict []) k) k
               = dict_setitem "headers" (PDict []) k).
  { unfold dict_setdefault, dict_contains, dict_get_default. now rewrite Hk. }
  rewrite E0.
  unfold bind, lift.
  rewrite (set_header_on _ _ []) by apply dict_get_setitem_same.
  rewrite dict_setitem_twice.
  rewrite (set_header_on _ _ _ _ (dict_get_setitem_same _ _ _)).
  rewrite dict_setitem_twice.
  rewrite (set_header_on _ _ _ _ (dict_get_setitem_same _ _ _)).
  rewrite dict_setitem_twice.
  assert (E1 : (if is_none (api_token (self st))
                then ret (dict_setitem "headers"
                       (PDict (dict_setitem "Content-Type" (PStr "application/json")
                         (dict_setitem "Accept" (PStr "application/json")
                           (dict_setitem "User-Agent" (PStr (user_agent (self st))) [])))) k)
                else fun st0 =>
                  (set_header "X-Cachet-Token" (api_token (self st))
                     (dict_setitem "headers"
                       (PDict (dict_setitem "Content-Type" (PStr "application/json")
                         (dict_setitem "Accept" (PStr "application/json")
                           (dict_setitem "User-Agent" (PStr (user_agent (self st))) [])))) k),
                   st0)) st
               = (Ok (dict_setitem "headers" (PDict (std_headers (self st))) k), st)).
  { unfold std_headers. destruct (is_none (api_token (self st))).
    - reflexivity.
    - rewrite (set_header_on _ _ _ _ (dict_get_setitem_same _ _ _)).
      rewrite dict_setitem_twice. reflexivity. }
  rewrite E1. fold (encode_data (dict_setitem "headers" (PDict (std_headers (self st))) k)).
  unfold http_send. cbv zeta.
  destruct (http_request _ _) as [err|resp]; [reflexivity|].
  unfold raise_for_status, decoded.
  destruct (ok resp); reflexivity.
Qed.

Lemma verb_run (method path : string) (kwargs : dict) (finish : pyval -> pyval) st :
  dict_get "headers" kwargs = None ->
  (me <- get_self ;;
   rd <- _request (url_of me path) method kwargs ;;
   ret (finish (snd rd))) st
  = exchange method path kwargs finish st.
Proof.
  intros Hh. unfold bind at 1. unfold get_self. cbv beta iota.
  unfold bind. rewrite _request_run by exact Hh. unfold exchange. cbv zeta.
  destruct (http_request _ _) as [err|resp]; [reflexivity|].
  destruct (ok resp); reflexivity.
Qed.

Lemma _get_run path kwargs st :
  dict_get "headers" kwargs = None ->
  _get path kwargs st
  = exchange "GET" path kwargs (fun d => PStr (json_dumps (Some 2) d)) st.
Proof. intros. unfold _get. now rewrite (verb_run "GET" path kwargs (fun d => PStr (json_dumps (Some 2) d))). Qed.

Lemma _post_run path kwargs st :
  dict_get "headers" kwargs = None ->
  _post path kwargs st
  = exchange "POST" path kwargs (fun d => PStr (json_dumps (Some 2) d)) st.
Proof. intros. unfold _post. now rewrite (verb_run "POST" path kwargs (fun d => PStr (json_dumps (Some 2) d))). Qed.

Lemma _put_run path kwargs st :
  dict_get "headers" kwargs = None ->
  _put path kwargs st
  = exchange "PUT" path kwargs (fun d => PStr (json_dumps (Some 2) d)) st.
Proof. intros. unfold _put. now rewrite (verb_run "PUT" path kwargs (fun d => PStr (json_dumps (Some 2) d))). Qed.

Lemma _delete_run path kwargs st :
  dict_get "headers" kwargs = None ->
  _delete path kwargs st = exchange "DELETE" path kwargs (fun _ => PBool true) st.
Proof. intros. unfold _delete. now rewrite (verb_run "DELETE" path kwargs (fun _ => PBool true)). Qed.

End Transport.

(** ** The gate, the required-argument check, and every call at a glance *)

Section Calls.
Context {rt : Runtime}.

Lemma api_token_required_run {A} (f : dict -> M A) kwargs st :
  api_token_required f kwargs st
  = if dict_contains "f" kwargs then (Raise KeywordCollision, st)
    else if is_none (api_token (self st)) then (Raise AuthRequired, st)
    else f kwargs st.
Proof.
  unfold api_token_required, bind, get_self, token_probe, AuthRequired,
    KeywordCollision.
  destruct (dict_contains "f" kwargs); [reflexivity|].
  destruct (is_none (api_token (self st))); reflexivity.
Qed.

Lemma api_token_required_positional {A} (f : dict -> M A) st :
  api_token_required f [] st
  = if is_none (api_token (self st)) then (Raise AuthRequired, st) else f [] st.
Proof. now rewrite api_token_required_run. Qed.

Lemma check_required_args_run required kwargs :
  check_required_args required kwargs
  = match first_missing required kwargs with
    | Some k => Raise (MissingArgument k)
    | None => Ok true
    end.
Proof.
  unfold first_missing, MissingArgument.
  induction required as [|k ks IH]; simpl; [reflexivity|].
  destruct (dict_contains k kwargs); simpl; [exact IH | reflexivity].
Qed.

Lemma first_missing_none_contains required kwargs k :
  first_missing required kwargs = None -> In k required ->
  dict_contains k kwargs = true.
Proof.
  unfold first_missing. intros Hf Hin.
  pose proof (find_none _ _ Hf k Hin) as Hk. simpl in Hk.
  now destruct (dict_contains k kwargs).
Qed.

Lemma exchange_self method path kwargs finish st :
  self (snd (exchange method path kwargs finish st)) = self st.
Proof.
  unfold exchange. cbv zeta.
  destruct (http_request _ _) as [err|resp]; [reflexivity|].
  destruct (ok resp); reflexivity.
Qed.

Lemma exchange_wire method path kwargs finish st :
  wire (snd (exchange method path kwargs finish st))
  = (wire st ++ [mk_request method (url_of (self st) path)
                   (sent_kwargs (self st) kwargs)])%list.
Proof.
  unfold exchange. cbv zeta.
  destruct (http_request _ _) as [err|resp]; [reflexivity|].
  destruct (ok resp); reflexivity.
Qed.

Lemma exchange_not_local method path kwargs finish st e :
  local_error e -> fst (exchange method path kwargs finish st) <> Raise e.
Proof.
  unfold exchange. cbv zeta. intros He.
  destruct (http_request _ _) as [err|resp]; simpl.
  - intros [= <-]. exact He.
  - destruct (ok resp); simpl; [discriminate|].
    intros [= <-]. exact He.
Qed.

Lemma checked_run {A} required kwargs (k : M A) st :
  (_ <- lift (check_required_args required kwargs) ;; k) st
  = match first_missing required kwargs with
    | Some arg => (Raise (MissingArgument arg), st)
    | None => k st
    end.
Proof.
  unfold bind, lift. rewrite check_required_args_run.
  destruct (first_missing required kwargs); reflexivity.
Qed.

Lemma getitem_run {A} key kwargs (k : pyval -> M A) st :
  (v <- lift (getitem key kwargs) ;; k v) st
  = match dict_get key kwargs with
    | Some v => k v st
    | None => (Raise (KeyError key), st)
    end.
Proof. unfold bind, lift, getitem. destruct (dict_get key kwargs); reflexivity. Qed.

Ltac unfold_methods :=
  cbv [Ping.get Version.get Subscribers.get
       Components.get Groups.get Incidents.get Metrics.get Points.get
       Components.post Groups.post Incidents.post Metrics.post Points.post
       Subscribers.post Components.put Groups.put Incidents.put
       Components.delete Groups.delete Incidents.delete Metrics.delete
       Points.delete Subscribers.delete
       Components.post_wrapped Groups.post_wrapped Incidents.post_wrapped
       Metrics.post_wrapped Points.post_wrapped Subscribers.post_wrapped
       Components.put_wrapped Groups.put_wrapped Incidents.put_wrapped
       Components.delete_wrapped Groups.delete_wrapped Incidents.delete_wrapped
       Metrics.delete_wrapped Points.delete_wrapped Subscribers.delete_wrapped].

Ltac step_call :=
  first
    [ rewrite api_token_required_positional
    | rewrite api_token_required_run
    | rewrite checked_run
    | rewrite getitem_run
    | rewrite _get_run by reflexivity
    | rewrite _post_run by reflexivity
    | rewrite _put_run by reflexivity
    | rewrite _delete_run by reflexivity ].

Ltac split_call :=
  match goal with
  | |- context [if dict_contains "f" ?k then _ else _] =>
      destruct (dict_contains "f" k) eqn:?
  | |- context [if is_none ?v then _ else _] => destruct (is_none v) eqn:?
  | |- context [if negb (is_none ?v) then _ else _] => destruct (is_none v) eqn:?
  | |- context [match first_missing ?r ?k with _ => _ end] =>
      destruct (first_missing r k) eqn:?
  | |- context [match dict_get ?key ?k with _ => _ end] =>
      destruct (dict_get key k) eqn:?
  end.

Ltac close_shape :=
  first
    [ apply shape_local; exact I
    | match goal with
      | |- shape ?c ?st (exchange _ ?p ?k _ _) =>
          exact (shape_exchange c st p k eq_refl)
      end ].

Lemma invoke_shape c st : shape c st (invoke c st).
Proof.
  destruct c as [r a|r kwargs|r kwargs|r a]; destruct r; simpl in *;
    try (apply shape_local; exact I);
    unfold_methods;
    repeat (repeat step_call; try split_call; cbv beta iota delta [negb]);
    close_shape.
Qed.

(** *** What is on the wire after a call *)

Lemma dict_get_encode_data_other key kwargs :
  key <> "data" -> dict_get key (encode_data kwargs) = dict_get key kwargs.
Proof.
  intros Hne. unfold encode_data.
  destruct (dict_get "data" kwargs); [|reflexivity].
  now apply dict_get_setitem_other.
Qed.

Lemma sent_kwargs_headers me kwargs :
  dict_get "headers" (sent_kwargs me kwargs) = Some (PDict (std_headers me)).
Proof.
  unfold sent_kwargs. rewrite dict_get_encode_data_other by discriminate.
  apply dict_get_setitem_same.
Qed.

Lemma sent_kwargs_params me kwargs :
  dict_get "params" kwargs = None ->
  dict_get "params" (sent_kwargs me kwargs) = None.
Proof.
  intros Hp. unfold sent_kwargs.
  rewrite dict_get_encode_data_other by discriminate.
  rewrite dict_get_setitem_other by discriminate.
  rewrite dict_get_with_config by discriminate. exact Hp.
Qed.

Lemma sent_kwargs_data me kwargs :
  dict_get "data" (sent_kwargs me (data_kw kwargs))
  = Some (PStr (json_dumps None (PDict kwargs))).
Proof.
  unfold sent_kwargs, encode_data.
  assert (E : dict_get "data"
                (dict_setitem "headers" (PDict (std_headers me))
                   (with_config me (data_kw kwargs))) = Some (PDict kwargs)).
  { rewrite dict_get_setitem_other by discriminate.
    rewrite dict_get_with_config by discriminate. reflexivity. }
  rewrite E. apply dict_get_setitem_same.
Qed.

Lemma std_headers_token me :
  dict_get "X-Cachet-Token" (std_headers me)
  = if is_none (api_token me) then None else Some (api_token me).
Proof. unfold std_headers. destruct (is_none (api_token me)); reflexivity. Qed.

Lemma snoc_inj {A} (l : list A) (x y : A) :
  (l ++ [x] = l ++ [y])%list -> x = y.
Proof. intros E. apply app_inv_head in E. now injection E. Qed.

Lemma snoc_neq {A} (l : list A) (x : A) : l <> (l ++ [x])%list.
Proof.
  intros E. apply (f_equal (@length A)) in E.
  rewrite length_app in E. simpl in E. lia.
Qed.

(** A request that a call put on the wire is the one of its round trip. *)
Lemma issued c st req :
  wire (snd (invoke c st)) = (wire st ++ [req])%list ->
  exists path kwargs,
    dict_get "headers" kwargs = None /\
    req = mk_request (method_of c) (url_of (self st) path)
            (sent_kwargs (self st) kwargs) /\
    invoke c st = exchange (method_of c) path kwargs (finish_of c) st.
Proof.
  intros Hw. destruct (invoke_shape c st) as [e He|path kwargs Hh].
  - simpl in Hw. now apply snoc_neq in Hw.
  - rewrite exchange_wire in Hw. apply snoc_inj in Hw.
    exists path, kwargs. repeat split; [exact Hh | now symmetry].
Qed.

Lemma exchange_reply method path kwargs finish st resp :
  http_request (wire st)
    (mk_request method (url_of (self st) path) (sent_kwargs (self st) kwargs))
  = inr resp ->
  fst (exchange method path kwargs finish st)
  = if ok resp then Ok (finish (decoded resp)) else Raise (HTTPError resp).
Proof.
  intros E. unfold exchange. cbv zeta. rewrite E.
  destruct (ok resp); reflexivity.
Qed.

(** *** Configuration is never written *)

(** C9: every operation ([get], [post], [put], [delete]) on every resource
    leaves the instance as it found it: [endpoint], [api_token], [timeout]
    and [verify] (and [user_agent]) are the same after the call as before,
    whether the call returns or raises. *)
Theorem client_unchanged (c : call) (st : state) :
  self (snd (invoke c st)) = self st.
Proof.
  destruct (invoke_shape c st) as [e He|path kwargs Hh].
  - reflexivity.
  - apply exchange_self.
Qed.

(** *** post and put in closed form *)

Lemma res_post_run (r : resource) (kwargs : dict) (st : state) :
  post_required r <> [] ->
  res_post r kwargs st
  = if dict_contains "f" kwargs then (Raise KeywordCollision, st)
    else if is_none (api_token (self st)) then (Raise AuthRequired, st)
    else match first_missing (post_required r) (post_defaults r kwargs) with
         | Some k => (Raise (MissingArgument k), st)
         | None =>
             exchange "POST" (post_path r (post_defaults r kwargs))
               (data_kw (post_defaults r kwargs))
               (fun d => PStr (json_dumps (Some 2) d)) st
         end.
Proof.
  intros Hreq.
  destruct r; simpl in Hreq; try congruence; simpl res_post;
    unfold_methods;
    rewrite api_token_required_run;
    (destruct (dict_contains "f" kwargs); [reflexivity|]);
    (destruct (is_none (api_token (self st))); [reflexivity|]);
    cbv beta; rewrite checked_run;
    unfold post_defaults, post_required, with_default;
    match goal with
    | |- context [first_missing ?l ?k] => destruct (first_missing l k) eqn:Hm
    end; try reflexivity;
    try (rewrite _post_run by reflexivity; reflexivity).
  (* Points: the path is built from kwargs['id'] *)
  rewrite getitem_run.
  assert (Hid : dict_contains "id" kwargs = true).
  { apply (first_missing_none_contains _ _ _ Hm). simpl. auto. }
  unfold dict_contains in Hid. unfold post_path, dict_get_default.
  destruct (dict_get "id" kwargs); [|discriminate].
  now rewrite _post_run by reflexivity.
Qed.

Lemma res_put_run (r : resource) (kwargs : dict) (st : state) :
  put_required r <> [] ->
  res_put r kwargs st
  = if dict_contains "f" kwargs then (Raise KeywordCollision, st)
    else if is_none (api_token (self st)) then (Raise AuthRequired, st)
    else match first_missing (put_required r) kwargs with
         | Some k => (Raise (MissingArgument k), st)
         | None =>
             exchange "PUT" (put_path r kwargs) (data_kw kwargs)
               (fun d => PStr (json_dumps (Some 2) d)) st
         end.
Proof.
  intros Hreq.
  destruct r; simpl in Hreq; try congruence; simpl res_put;
    unfold_methods;
    rewrite api_token_required_run;
    (destruct (dict_contains "f" kwargs); [reflexivity|]);
    (destruct (is_none (api_token (self st))); [reflexivity|]);
    cbv beta; rewrite checked_run; unfold put_required;
    (destruct (first_missing ["id"] kwargs) eqn:Hm; [reflexivity|]);
    rewrite getitem_run;
    (assert (Hid : dict_contains "id" kwargs = true)
       by (apply (first_missing_none_contains _ _ _ Hm); simpl; auto));
    unfold dict_contains in Hid; unfold put_path, dict_get_default;
    (destruct (dict_get "id" kwargs); [|discriminate]);
    now rewrite _put_run by reflexivity.
Qed.

Lemma MissingArgument_inj a b : MissingArgument a = MissingArgument b -> a = b.
Proof. unfold MissingArgument. simpl. now intros [= ->]. Qed.

Lemma first_missing_some required kwargs k :
  first_missing required kwargs = Some k -> dict_contains k kwargs = false.
Proof.
  unfold first_missing. intros Hf. apply find_some in Hf as [_ Hk].
  now destruct (dict_contains k kwargs).
Qed.

(** The defaults that [post] fills in, per resource. *)
Lemma post_defaults_value r k v kwargs :
  In (r, k, v)
     [(RComponents, "enabled", PBool true); (RIncidents, "visible", PBool true);
      (RIncidents, "notify", PBool false); (RMetrics, "default_value", PInt 0)] ->
  dict_contains k kwargs = false ->
  dict_get k (post_defaults r kwargs) = Some v.
Proof.
  unfold dict_contains. intros Hin Hk.
  simpl in Hin.
  destruct Hin as [E|[E|[E|[E|[]]]]]; injection E as <- <- <-; simpl post_defaults.
  - rewrite dict_get_with_default_same. unfold dict_get_default.
    now destruct (dict_get "enabled" kwargs).
  - rewrite dict_get_with_default_other by discriminate.
    rewrite dict_get_with_default_same. unfold dict_get_default.
    now destruct (dict_get "visible" kwargs).
  - rewrite dict_get_with_default_same. unfold dict_get_default.
    rewrite dict_get_with_default_other by discriminate.
    now destruct (dict_get "notify" kwargs).
  - rewrite dict_get_with_default_same. unfold dict_get_default.
    now destruct (dict_get "default_value" kwargs).
Qed.

Lemma post_defaults_contains r k v kwargs :
  In (r, k, v)
     [(RComponents, "enabled", PBool true); (RIncidents, "visible", PBool true);
      (RIncidents, "notify", PBool false); (RMetrics, "default_value", PInt 0)] ->
  dict_contains k (post_defaults r kwargs) = true.
Proof.
  intros Hin. simpl in Hin.
  destruct Hin as [E|[E|[E|[E|[]]]]]; injection E as <- <- <-; simpl post_defaults;
    unfold dict_contains;
    try rewrite (dict_get_with_default_other "visible" "notify") by discriminate;
    now rewrite dict_get_with_default_same.
Qed.

Lemma defaulted_post_required r k v :
  In (r, k, v)
     [(RComponents, "enabled", PBool true); (RIncidents, "visible", PBool true);
      (RIncidents, "notify", PBool false); (RMetrics, "default_value", PInt 0)] ->
  post_required r <> [] /\ In k (post_required r).
Proof.
  intros Hin. simpl in Hin.
  destruct Hin as [E|[E|[E|[E|[]]]]]; injection E as <- <- <-; simpl;
    split; try discriminate; tauto.
Qed.

(** C3: defaults go into the argument map before the required-argument check,
    so a defaulted field never fails it.  For [Components.post] without
    [enabled], [Incidents.post] without [visible] or [notify] and
    [Metrics.post] without [default_value]: the call never raises
    [MissingArgument] for that field, every request it sends has a JSON body
    built from a map in which the field has its default ([True], [True],
    [False], [0]), and with a token, the other required fields present and
    no keyword named [f] it does send one such POST. *)
Theorem post_defaults_dispatched (r : resource) (k : string) (v : pyval)
  (kwargs : dict) (st : state) :
  In (r, k, v)
     [(RComponents, "enabled", PBool true); (RIncidents, "visible", PBool true);
      (RIncidents, "notify", PBool false); (RMetrics, "default_value", PInt 0)] ->
  dict_contains k kwargs = false ->
  fst (res_post r kwargs st) <> Raise (MissingArgument k) /\
  (forall req,
     wire (snd (res_post r kwargs st)) = (wire st ++ [req])%list ->
     exists body,
       json_body_of req = Some (PStr (json_dumps None (PDict body))) /\
       dict_get k body = Some v) /\
  (is_none (api_token (self st)) = false ->
   dict_contains "f" kwargs = false ->
   first_missing (post_required r) (post_defaults r kwargs) = None ->
   exists req,
     wire (snd (res_post r kwargs st)) = (wire st ++ [req])%list /\
     req_method req = "POST" /\
     req_url req = url_of (self st) (collection r) /\
     json_body_of req
     = Some (PStr (json_dumps None (PDict (post_defaults r kwargs)))) /\
     dict_get k (post_defaults r kwargs) = Some v).
Proof.
  intros Hin Hk.
  destruct (defaulted_post_required _ _ _ Hin) as [Hreq Hkin].
  pose proof (post_defaults_value _ _ _ kwargs Hin Hk) as Hv.
  pose proof (post_defaults_contains _ _ _ kwargs Hin) as Hc.
  rewrite (res_post_run r kwargs st Hreq).
  assert (Hpath : post_path r (post_defaults r kwargs) = collection r).
  { simpl in Hin.
    destruct Hin as [E|[E|[E|[E|[]]]]]; injection E as <- <- <-; reflexivity. }
  destruct (dict_contains "f" kwargs) eqn:Hf.
  { split; [simpl; unfold KeywordCollision, MissingArgument; discriminate|].
    split; [|discriminate].
    intros req Hw. simpl in Hw. now apply snoc_neq in Hw. }
  destruct (is_none (api_token (self st))) eqn:Ht.
  - split; [simpl; unfold AuthRequired, MissingArgument; discriminate|].
    split; [|discriminate].
    intros req Hw. simpl in Hw. now apply snoc_neq in Hw.
  - destruct (first_missing (post_required r) (post_defaults r kwargs)) as [m|] eqn:Hm.
    + split.
      * simpl. intros E.
        assert (Em : MissingArgument m = MissingArgument k) by congruence.
        apply MissingArgument_inj in Em. subst m.
        apply first_missing_some in Hm. congruence.
      * split; [|discriminate].
        intros req Hw. simpl in Hw. now apply snoc_neq in Hw.
    + split; [apply exchange_not_local; exact I|].
      split.
      * intros req Hw. rewrite exchange_wire in Hw. apply snoc_inj in Hw. subst req.
        exists (post_defaults r kwargs). split; [|exact Hv].
        unfold json_body_of. simpl req_kwargs. apply sent_kwargs_data.
      * intros _ _ _. eexists. rewrite exchange_wire.
        split; [reflexivity|]. simpl req_method. simpl req_url.
        rewrite Hpath. unfold json_body_of. simpl req_kwargs.
        rewrite sent_kwargs_data. repeat split. exact Hv.
Qed.

(** C4 (amended): for every [post] and [put] with a non-empty list of
    required arguments, called without a keyword named [f].  On an instance
    with a token the argument map (after the defaults of [post]) decides: if
    it lacks a required key the call raises [MissingArgument] for the first
    such key in declaration order and sends nothing; otherwise the call sends
    exactly one request, a POST or PUT to the path of the resource.  On an
    instance without a token the call stops on the gate, which runs before
    the check. *)
Theorem required_args_checked (r : resource) (kwargs : dict) (st : state) :
  dict_contains "f" kwargs = false ->
  (post_required r <> [] ->
   if is_none (api_token (self st))
   then res_post r kwargs st = (Raise AuthRequired, st)
   else match first_missing (post_required r) (post_defaults r kwargs) with
        | Some k => res_post r kwargs st = (Raise (MissingArgument k), st)
        | None =>
            exists req,
              wire (snd (res_post r kwargs st)) = (wire st ++ [req])%list /\
              req_method req = "POST" /\
              req_url req = url_of (self st) (post_path r (post_defaults r kwargs))
        end) /\
  (put_required r <> [] ->
   if is_none (api_token (self st))
   then res_put r kwargs st = (Raise AuthRequired, st)
   else match first_missing (put_required r) kwargs with
        | Some k => res_put r kwargs st = (Raise (MissingArgument k), st)
        | None =>
            exists req,
              wire (snd (res_put r kwargs st)) = (wire st ++ [req])%list /\
              req_method req = "PUT" /\
              req_url req = url_of (self st) (put_path r kwargs)
        end).
Proof.
  intros Hf. split; intros Hreq.
  - rewrite (res_post_run r kwargs st Hreq), Hf.
    destruct (is_none (api_token (self st))); [reflexivity|].
    destruct (first_missing _ _); [reflexivity|].
    eexists. rewrite exchange_wire. repeat split.
  - rewrite (res_put_run r kwargs st Hreq), Hf.
    destruct (is_none (api_token (self st))); [reflexivity|].
    destruct (first_missing _ _); [reflexivity|].
    eexists. rewrite exchange_wire. repeat split.
Qed.

(** *** Which calls reach the transport, and what comes back *)

Ltac close_outcome :=
  first
    [ eexists; split; [|reflexivity]; exact I
    | eexists _, []; split; [left; reflexivity | reflexivity]
    | eexists _, (data_kw _); split;
      [right; eexists; reflexivity | reflexivity] ].

Lemma invoke_outcome (c : call) (st : state) :
  if sends c st
  then exists path kwargs,
         (kwargs = [] \/ exists d, kwargs = data_kw d) /\
         invoke c st = exchange (method_of c) path kwargs (finish_of c) st
  else exists e, local_error e /\ invoke c st = (Raise e, st).
Proof.
  destruct c as [r a|r kwargs|r kwargs|r a].
  - destruct r; simpl sends; simpl invoke; unfold_methods;
      repeat (repeat step_call; try split_call; cbv beta iota delta [negb]);
      close_outcome.
  - destruct r; unfold sends; simpl token_gated; cbv beta iota delta [andb];
      try (simpl; close_outcome);
      change (invoke (Post ?r kwargs) st) with (res_post r kwargs st);
      rewrite res_post_run by discriminate; unfold complete;
      destruct (dict_contains "f" kwargs); cbv beta iota delta [negb andb];
      try close_outcome;
      destruct (is_none (api_token (self st))); cbv beta iota delta [negb andb];
      try close_outcome;
      destruct (first_missing _ _); close_outcome.
  - destruct r; unfold sends; simpl token_gated; cbv beta iota delta [andb];
      try (simpl; close_outcome);
      change (invoke (Put ?r kwargs) st) with (res_put r kwargs st);
      rewrite res_put_run by discriminate; unfold complete;
      destruct (dict_contains "f" kwargs); cbv beta iota delta [negb andb];
      try close_outcome;
      destruct (is_none (api_token (self st))); cbv beta iota delta [negb andb];
      try close_outcome;
      destruct (first_missing _ _); close_outcome.
  - destruct r; unfold sends; simpl token_gated; cbv beta iota delta [andb];
      try (simpl; close_outcome);
      simpl invoke; unfold_methods; rewrite api_token_required_positional;
      destruct (is_none (api_token (self st))); cbv beta iota delta [negb];
      try close_outcome;
      rewrite _delete_run by reflexivity; close_outcome.
Qed.

(** The reply decides the outcome of a call that reached the transport. *)
Lemma sent_outcome (c : call) (st : state) :
  sends c st = true ->
  exists req,
    wire (snd (invoke c st)) = (wire st ++ [req])%list /\
    req_method req = method_of c /\
    match http_request (wire st) req with
    | inr resp =>
        fst (invoke c st)
        = if ok resp then Ok (finish_of c (decoded resp))
          else Raise (HTTPError resp)
    | inl err => fst (invoke c st) = Raise (RequestException err)
    end.
Proof.
  intros Hs. pose proof (invoke_outcome c st) as H. rewrite Hs in H.
  destruct H as (path & kwargs & _ & E). rewrite E, exchange_wire.
  eexists. split; [reflexivity|]. split; [reflexivity|].
  unfold exchange. cbv zeta.
  destruct (http_request _ _) as [err|resp]; [reflexivity|].
  destruct (ok resp); reflexivity.
Qed.

Lemma unsent_outcome (c : call) (st : state) :
  sends c st = false ->
  snd (invoke c st) = st /\ exists e, fst (invoke c st) = Raise e.
Proof.
  intros Hs. pose proof (invoke_outcome c st) as H. rewrite Hs in H.
  destruct H as (e & _ & E). rewrite E. split; [reflexivity | now exists e].
Qed.

(** *** delete *)

(** C5: for every resource, [delete] returns [True] whenever the reply has
    a success status, whatever the body, and raises the [HTTPError] that
    carries the response otherwise.  A decorated [delete] on an instance with
    a token does send its DELETE and ends as the reply says; every other
    [delete] raises with nothing sent, so that no reply exists. *)
Theorem delete_returns_true (r : resource) (a : delete_args r) (st : state) :
  (if token_gated (Delete r a) && negb (is_none (api_token (self st)))
   then exists req,
          wire (snd (res_delete r a st)) = (wire st ++ [req])%list /\
          req_method req = "DELETE" /\
          match http_request (wire st) req with
          | inr resp =>
              fst (res_delete r a st)
              = if ok resp then Ok (PBool true) else Raise (HTTPError resp)
          | inl err => fst (res_delete r a st) = Raise (RequestException err)
          end
   else snd (res_delete r a st) = st /\
        exists e, fst (res_delete r a st) = Raise e) /\
  (forall req resp,
     wire (snd (res_delete r a st)) = (wire st ++ [req])%list ->
     http_request (wire st) req = inr resp ->
     (ok resp = true -> fst (res_delete r a st) = Ok (PBool true)) /\
     (ok resp = false -> fst (res_delete r a st) = Raise (HTTPError resp))).
Proof.
  split.
  - change (token_gated (Delete r a) && negb (is_none (api_token (self st))))
      with (sends (Delete r a) st).
    destruct (sends (Delete r a) st) eqn:Hs.
    + exact (sent_outcome (Delete r a) st Hs).
    + exact (unsent_outcome (Delete r a) st Hs).
  - intros req resp Hw Hr.
    destruct (issued (Delete r a) st req Hw) as (path & kwargs & Hh & -> & E).
    simpl invoke in E. rewrite E.
    rewrite (exchange_reply _ _ _ _ _ resp Hr).
    split; intros ->; reflexivity.
Qed.

(** *** get, post and put *)

(** C6: every [get], [post] and [put] call that got a reply with a success
    status returns [json.dumps(body, indent=2)], a string, where [body] is the
    decoded document; a body that does not decode counts as [None] and the
    call returns [json.dumps(None, indent=2)] instead of raising.  A call
    that reaches the transport does send its request and ends as the reply
    says; a call that does not raises with nothing sent. *)
Theorem readers_return_pretty_json (c : call) (st : state) :
  is_delete c = false ->
  (if sends c st
   then exists req,
          wire (snd (invoke c st)) = (wire st ++ [req])%list /\
          req_method req = method_of c /\
          match http_request (wire st) req with
          | inr resp =>
              fst (invoke c st)
              = if ok resp
                then Ok (PStr (json_dumps (Some 2) (decoded resp)))
                else Raise (HTTPError resp)
          | inl err => fst (invoke c st) = Raise (RequestException err)
          end
   else snd (invoke c st) = st /\ exists e, fst (invoke c st) = Raise e) /\
  (forall req resp,
     wire (snd (invoke c st)) = (wire st ++ [req])%list ->
     http_request (wire st) req = inr resp ->
     ok resp = true ->
     fst (invoke c st) = Ok (PStr (json_dumps (Some 2) (decoded resp))) /\
     (json resp = None ->
      fst (invoke c st) = Ok (PStr (json_dumps (Some 2) PNone)))).
Proof.
  intros Hd. split.
  - destruct (sends c st) eqn:Hs.
    + destruct (sent_outcome c st Hs) as (req & Hw & Hm & Hr).
      exists req. split; [exact Hw|]. split; [exact Hm|].
      unfold finish_of in Hr. rewrite Hd in Hr. exact Hr.
    + exact (unsent_outcome c st Hs).
  - intros req resp Hw Hr Hok.
    destruct (issued c st req Hw) as (path & kwargs & Hh & -> & E).
    rewrite E, (exchange_reply _ _ _ _ _ resp Hr), Hok.
    unfold finish_of. rewrite Hd. split; [reflexivity|].
    intros Hj. unfold decoded. now rewrite Hj.
Qed.

(** *** get *)

(** C1 (amended): on Components, Groups, Incidents, Metrics and Points, [get]
    with an id sends one GET to the item path ([<collection>/<id>], and
    [metrics/<id>/points] on Points).  Without an id, the first four send one
    GET to the bare collection path whose keyword arguments travel JSON-encoded
    as the request's [data], and Points raises without sending anything.  No
    request carries query-string parameters. *)
Theorem get_request_paths (r : resource) (id : pyval) (kwargs : dict)
  (st : state) :
  In r [RComponents; RGroups; RIncidents; RMetrics; RPoints] ->
  if is_none id
  then match r with
       | RPoints =>
           res_get r (call_get r id kwargs) st
           = (Raise (AttributeError "metric_id is required to get metric points."),
              st)
       | _ =>
           exists req,
             wire (snd (res_get r (call_get r id kwargs) st))
             = (wire st ++ [req])%list /\
             req_method req = "GET" /\
             req_url req = url_of (self st) (collection r) /\
             json_body_of req = Some (PStr (json_dumps None (PDict kwargs))) /\
             query_params req = None
       end
  else exists req,
         wire (snd (res_get r (call_get r id kwargs) st))
         = (wire st ++ [req])%list /\
         req_method req = "GET" /\
         req_url req = url_of (self st) (item_path r id) /\
         query_params req = None.
Proof.
  intros Hin. simpl in Hin.
  destruct Hin as [<-|[<-|[<-|[<-|[<-|[]]]]]];
    destruct (is_none id) eqn:Hid; simpl call_get; simpl res_get;
    cbv [Components.get Groups.get Incidents.get Metrics.get Points.get];
    simpl fst; simpl snd; rewrite Hid; cbv beta iota delta [negb];
    try reflexivity;
    rewrite _get_run by reflexivity; rewrite exchange_wire;
    eexists; (split; [reflexivity|]);
    unfold json_body_of, query_params; simpl req_method; simpl req_url;
    simpl req_kwargs;
    repeat split;
    try apply sent_kwargs_data;
    apply sent_kwargs_params; reflexivity.
Qed.

(** C7: [Points.get] without a [metric_id] raises the [AttributeError] that
    says the id is required, leaving the state (and so the wire) untouched;
    with a [metric_id] it sends one GET to [metrics/<metric_id>/points]. *)
Theorem points_get_requires_metric_id (metric_id : pyval) (kwargs : dict)
  (st : state) :
  Points.get PNone kwargs st
  = (Raise (AttributeError "metric_id is required to get metric points."), st) /\
  (is_none metric_id = false ->
   exists req,
     wire (snd (Points.get metric_id kwargs st)) = (wire st ++ [req])%list /\
     req_method req = "GET" /\
     req_url req
     = url_of (self st) ("metrics/" ++ py_format metric_id ++ "/points")).
Proof.
  split; [reflexivity|].
  intros Hid. unfold Points.get. rewrite Hid.
  rewrite _get_run by reflexivity. rewrite exchange_wire.
  eexists. repeat split.
Qed.

(** *** The token gate *)

Lemma token_gate_aux (c : call) (st : state) :
  token_gated c = true ->
  is_none (api_token (self st)) = false ->
  fst (invoke c st) <> Raise AuthRequired.
Proof.
  intros Hg Hn.
  destruct c as [r a|r kwargs|r kwargs|r a]; try discriminate;
    destruct r; try discriminate; simpl invoke;
    cbv [res_post res_put res_delete]; unfold_methods;
    repeat (repeat step_call; try split_call; cbv beta iota delta [negb]);
    try congruence;
    first [ apply exchange_not_local; exact I
          | simpl; unfold AuthRequired, MissingArgument, KeywordCollision;
            discriminate ].
Qed.

(** Past the decorator a call is the function written under it. *)
Lemma gate_passes (c : call) (st : state) :
  token_gated c = true ->
  dict_contains "f" (decorator_kwargs c) = false ->
  is_none (api_token (self st)) = false ->
  invoke c st = wrapped c st.
Proof.
  intros Hg Hf Hn.
  destruct c as [r a|r kwargs|r kwargs|r a]; try discriminate;
    destruct r; try discriminate; simpl in Hf; simpl invoke; simpl wrapped;
    cbv [res_post res_put res_delete res_post_wrapped res_put_wrapped
         res_delete_wrapped
         Components.post Groups.post Incidents.post Metrics.post Points.post
         Subscribers.post Components.put Groups.put Incidents.put
         Components.delete Groups.delete Incidents.delete Metrics.delete
         Points.delete Subscribers.delete];
    rewrite api_token_required_run, ?Hf, Hn; reflexivity.
Qed.

Lemma gate_stops (c : call) (st : state) :
  token_gated c = true ->
  dict_contains "f" (decorator_kwargs c) = false ->
  is_none (api_token (self st)) = true ->
  invoke c st = (Raise AuthRequired, st).
Proof.
  intros Hg Hf Hn.
  destruct c as [r a|r kwargs|r kwargs|r a]; try discriminate;
    destruct r; try discriminate; simpl in Hf; simpl invoke;
    cbv [res_post res_put res_delete
         Components.post Groups.post Incidents.post Metrics.post Points.post
         Subscribers.post Components.put Groups.put Incidents.put
         Components.delete Groups.delete Incidents.delete Metrics.delete
         Points.delete Subscribers.delete];
    rewrite api_token_required_run, ?Hf, Hn; reflexivity.
Qed.

(** C2 (amended): a mutating operation that the resource class defines
    carries the gate.  Called without a keyword named [f], it raises
    [AuthRequired] and leaves the state (and so the wire) untouched when the
    instance has no token, and with a token it runs the function written
    under the decorator, so that it does not fail on the gate.  A mutating
    operation that the class inherits from the base class raises
    [UnimplementedException], token or not, and sends nothing. *)
Theorem token_gate (c : call) (st : state) :
  mutating c = true ->
  if token_gated c
  then dict_contains "f" (decorator_kwargs c) = false ->
       (is_none (api_token (self st)) = true ->
        invoke c st = (Raise AuthRequired, st)) /\
       (is_none (api_token (self st)) = false ->
        invoke c st = wrapped c st /\
        fst (invoke c st) <> Raise AuthRequired)
  else invoke c st = (Raise UnimplementedException, st).
Proof.
  intros Hm. destruct (token_gated c) eqn:Hg.
  - intros Hf. split; intros Hn.
    + now apply gate_stops.
    + split; [now apply gate_passes | now apply token_gate_aux].
  - destruct c as [r a|r kwargs|r kwargs|r a]; try discriminate;
      destruct r; try discriminate; reflexivity.
Qed.


(** *** Construction *)

(** C8: whatever the class, construction from a map without [endpoint]
    raises the [KeyError] that says the endpoint is required and puts
    nothing on the wire; with [endpoint] present it succeeds, again with
    nothing on the wire, and [api_token], [timeout] and [verify] are taken
    from the map when given and are [None] otherwise. *)
Theorem construction_requires_endpoint (k : class) (kwargs : dict)
  (w : list request) :
  (dict_get "endpoint" kwargs = None ->
   construct k kwargs w = (Raise ConfigurationError, w)) /\
  (forall ep, dict_get "endpoint" kwargs = Some ep ->
   exists me,
     construct k kwargs w = (Ok me, w) /\
     endpoint me = ep /\
     api_token me = dict_get_default "api_token" PNone kwargs /\
     timeout me = dict_get_default "timeout" PNone kwargs /\
     verify me = dict_get_default "verify" PNone kwargs).
Proof.
  assert (E : construct k kwargs w = __init__ kwargs w)
    by (destruct k as [| |r]; [..|destruct r]; reflexivity).
  rewrite E. unfold __init__, ConfigurationError. split.
  - intros ->. reflexivity.
  - intros ep ->. eexists. repeat split.
Qed.

(** ** Beyond the claims: the library *)

Ltac close_round_trip :=
  first
    [ apply round_trip_local; exact I
    | match goal with
      | |- round_trip ?c ?st (exchange _ ?p [] _ _) =>
          exact (round_trip_plain c st p)
      | |- round_trip ?c ?st (exchange _ ?p (data_kw ?d) _ _) =>
          exact (round_trip_data c st p d)
      end ].

Lemma invoke_round_trip c st : round_trip c st (invoke c st).
Proof.
  destruct c as [r a|r kwargs|r kwargs|r a]; destruct r; simpl in *;
    try (apply round_trip_local; exact I);
    unfold_methods;
    repeat (repeat step_call; try split_call; cbv beta iota delta [negb]);
    close_round_trip.
Qed.

(** The request of a call, with the keyword arguments it was built from. *)
Lemma issued_from c st req :
  wire (snd (invoke c st)) = (wire st ++ [req])%list ->
  exists path kwargs,
    (kwargs = [] \/ exists d, kwargs = data_kw d) /\
    req = mk_request (method_of c) (url_of (self st) path)
            (sent_kwargs (self st) kwargs) /\
    invoke c st = exchange (method_of c) path kwargs (finish_of c) st.
Proof.
  intros Hw. destruct (invoke_round_trip c st) as [e He|path|path d].
  - simpl in Hw. now apply snoc_neq in Hw.
  - rewrite exchange_wire in Hw. apply snoc_inj in Hw.
    exists path, []. repeat split; [now left | now symmetry].
  - rewrite exchange_wire in Hw. apply snoc_inj in Hw.
    exists path, (data_kw d). repeat split; [right; now exists d | now symmetry].
Qed.

Lemma header_sent me kwargs method url name :
  header name (mk_request method url (sent_kwargs me kwargs))
  = dict_get name (std_headers me).
Proof. unfold header. simpl req_kwargs. now rewrite sent_kwargs_headers. Qed.

(** X1: whatever the call and whoever makes it, the request that goes out
    carries the three fixed headers: the instance's [User-Agent] and
    [application/json] for both [Accept] and [Content-Type]. *)
Theorem fixed_headers_on_every_request (c : call) (st : state) (req : request) :
  wire (snd (invoke c st)) = (wire st ++ [req])%list ->
  header "User-Agent" req = Some (PStr (user_agent (self st))) /\
  header "Accept" req = Some (PStr "application/json") /\
  header "Content-Type" req = Some (PStr "application/json").
Proof.
  intros Hw. destruct (issued c st req Hw) as (path & kwargs & _ & -> & _).
  rewrite !header_sent. unfold std_headers.
  destruct (is_none (api_token (self st))); repeat split.
Qed.

(** X2: the token header follows the instance: a request carries
    [X-Cachet-Token] with the configured token when there is one, and no
    such header at all when [api_token] is [None] (as on the anonymous
    reads). *)
Theorem token_header_follows_instance (c : call) (st : state) (req : request) :
  wire (snd (invoke c st)) = (wire st ++ [req])%list ->
  header "X-Cachet-Token" req
  = if is_none (api_token (self st)) then None else Some (api_token (self st)).
Proof.
  intros Hw. destruct (issued c st req Hw) as (path & kwargs & _ & -> & _).
  rewrite header_sent. apply std_headers_token.
Qed.

Lemma dict_get_setdefault_same k v d :
  dict_get k (dict_setdefault k v d)
  = match dict_get k d with Some v' => Some v' | None => Some v end.
Proof.
  unfold dict_setdefault, dict_contains.
  destruct (dict_get k d) eqn:E; [exact E | apply dict_get_setitem_same].
Qed.

Lemma with_config_timeout me kwargs :
  dict_get "timeout" (with_config me kwargs)
  = match dict_get "timeout" kwargs with
    | Some t => Some t
    | None => if is_none (timeout me) then None else Some (timeout me)
    end.
Proof.
  unfold with_config.
  destruct (is_none (verify me));
    try rewrite dict_get_setdefault_other by discriminate;
    (destruct (is_none (timeout me));
     [now destruct (dict_get "timeout" kwargs) | apply dict_get_setdefault_same]).
Qed.

Lemma with_config_verify me kwargs :
  dict_get "verify" (with_config me kwargs)
  = match dict_get "verify" kwargs with
    | Some t => Some t
    | None => if is_none (verify me) then None else Some (verify me)
    end.
Proof.
  unfold with_config.
  destruct (is_none (verify me)).
  - destruct (is_none (timeout me));
      try rewrite dict_get_setdefault_other by discriminate;
      now destruct (dict_get "verify" kwargs).
  - rewrite dict_get_setdefault_same.
    destruct (is_none (timeout me));
      try rewrite dict_get_setdefault_other by discriminate; reflexivity.
Qed.

Lemma sent_kwargs_config key me kwargs :
  key <> "data" -> key <> "headers" ->
  dict_get key (sent_kwargs me kwargs) = dict_get key (with_config me kwargs).
Proof.
  intros Hd Hh. unfold sent_kwargs.
  rewrite dict_get_encode_data_other by exact Hd.
  now rewrite dict_get_setitem_other by exact Hh.
Qed.

(** X3: the instance's [timeout] and [verify] reach [session.request] on
    every call when they are set, and are left out (so that the session's
    own defaults apply) when they are [None]. *)
Theorem timeout_and_verify_forwarded (c : call) (st : state) (req : request) :
  wire (snd (invoke c st)) = (wire st ++ [req])%list ->
  dict_get "timeout" (req_kwargs req)
  = (if is_none (timeout (self st)) then None else Some (timeout (self st))) /\
  dict_get "verify" (req_kwargs req)
  = (if is_none (verify (self st)) then None else Some (verify (self st))).
Proof.
  intros Hw.
  destruct (issued_from c st req Hw) as (path & kwargs & Hk & -> & _).
  simpl req_kwargs.
  rewrite !sent_kwargs_config by discriminate.
  rewrite with_config_timeout, with_config_verify.
  destruct Hk as [->|[d ->]]; split; reflexivity.
Qed.

Lemma client_unchanged_aux (c : call) (st : state) :
  self (snd (invoke c st)) = self st.
Proof.
  destruct (invoke_shape c st) as [e He|path kwargs Hh];
    [reflexivity | apply exchange_self].
Qed.

Lemma at_most_one_aux (c : call) (st : state) :
  wire (snd (invoke c st)) = wire st \/
  exists req, wire (snd (invoke c st)) = (wire st ++ [req])%list.
Proof.
  destruct (invoke_shape c st) as [e He|path kwargs Hh].
  - now left.
  - right. rewrite exchange_wire. eexists. reflexivity.
Qed.

(** X4: a call sends at most one request and never touches what is already
    on the wire: afterwards the wire is the old one, or the old one with one
    request appended. *)
Theorem at_most_one_request (c : call) (st : state) :
  wire (snd (invoke c st)) = wire st \/
  exists req, wire (snd (invoke c st)) = (wire st ++ [req])%list.
Proof. apply at_most_one_aux. Qed.

(** X5: how a call can fail.  Either it raises before anything is built
    ([KeyError], [AttributeError], [UnimplementedException], or the
    [TypeError] of a decorated method called with a keyword named [f]) and
    then nothing was sent and the state is untouched; or exactly one request
    was sent and the error is the [HTTPError] of a reply with a failure
    status, or the failure of the transport itself. *)
Theorem failure_kinds (c : call) (st : state) (e : exn) :
  fst (invoke c st) = Raise e ->
  (local_error e /\ snd (invoke c st) = st) \/
  (exists req,
     wire (snd (invoke c st)) = (wire st ++ [req])%list /\
     ((exists resp,
         e = HTTPError resp /\ http_request (wire st) req = inr resp /\
         ok resp = false) \/
      (exists err,
         e = RequestException err /\ http_request (wire st) req = inl err))).
Proof.
  intros He. destruct (invoke_shape c st) as [e' He'|path kwargs Hh].
  - left. simpl in He. injection He as <-. split; [exact He' | reflexivity].
  - right. rewrite exchange_wire. eexists. split; [reflexivity|].
    revert He. unfold exchange. cbv zeta.
    destruct (http_request _ _) as [err|resp] eqn:Hr; simpl.
    + intros [= <-]. right. now exists err.
    + destruct (ok resp) eqn:Hok; simpl; [discriminate|].
      intros [= <-]. left. now exists resp.
Qed.

(** X6: a call returns a value only after a reply with a success status to
    the one request it sent. *)
Theorem success_needs_ok_reply (c : call) (st : state) (v : pyval) :
  fst (invoke c st) = Ok v ->
  exists req resp,
    wire (snd (invoke c st)) = (wire st ++ [req])%list /\
    http_request (wire st) req = inr resp /\
    ok resp = true /\
    v = finish_of c (decoded resp).
Proof.
  intros Hv. destruct (invoke_shape c st) as [e' He'|path kwargs Hh].
  - discriminate Hv.
  - rewrite exchange_wire. eexists.
    revert Hv. unfold exchange. cbv zeta.
    destruct (http_request _ _) as [err|resp] eqn:Hr; simpl; [discriminate|].
    destruct (ok resp) eqn:Hok; simpl; [|discriminate].
    intros [= <-]. exists resp. repeat split; assumption.
Qed.

(** X7: a failure of the transport (connection refused, timeout) comes out
    of the call as it is, after the single attempt: the call does not retry
    and does not turn it into a value. *)
Theorem transport_failure_propagates (c : call) (st : state) (req : request)
  (err : string) :
  wire (snd (invoke c st)) = (wire st ++ [req])%list ->
  http_request (wire st) req = inl err ->
  fst (invoke c st) = Raise (RequestException err).
Proof.
  intros Hw Hr.
  destruct (issued c st req Hw) as (path & kwargs & _ & -> & E).
  rewrite E. unfold exchange. cbv zeta. now rewrite Hr.
Qed.

(** X8: reading needs no token: no [get], on any resource and any instance,
    fails on the authentication gate. *)
Theorem get_is_not_gated (r : resource) (a : get_args r) (st : state) :
  fst (res_get r a st) <> Raise AuthRequired.
Proof.
  destruct r; simpl in *;
    cbv [Ping.get Version.get Subscribers.get
         Components.get Groups.get Incidents.get Metrics.get Points.get];
    repeat (repeat step_call; try split_call; cbv beta iota delta [negb]);
    first [ apply exchange_not_local; exact I
          | simpl; unfold AuthRequired; discriminate ].
Qed.

(** *** What each method sends *)

Lemma sent_kwargs_no_data me :
  dict_get "data" (sent_kwargs me []) = None.
Proof.
  assert (E : dict_get "data"
                (dict_setitem "headers" (PDict (std_headers me)) (with_config me []))
              = None).
  { rewrite dict_get_setitem_other by discriminate.
    now rewrite dict_get_with_config by discriminate. }
  unfold sent_kwargs, encode_data. now rewrite E.
Qed.

(** X9: [get] with an id forwards the caller's keyword arguments as the
    JSON [data] of the request on Groups, Incidents, Metrics and Points, but
    drops them on Components, whose request has no [data] at all. *)
Theorem get_by_id_body (r : resource) (id : pyval) (kwargs : dict) (st : state)
  (req : request) :
  In r [RComponents; RGroups; RIncidents; RMetrics; RPoints] ->
  is_none id = false ->
  wire (snd (res_get r (call_get r id kwargs) st)) = (wire st ++ [req])%list ->
  json_body_of req
  = match r with
    | RComponents => None
    | _ => Some (PStr (json_dumps None (PDict kwargs)))
    end.
Proof.
  intros Hin Hid. simpl in Hin.
  destruct Hin as [<-|[<-|[<-|[<-|[<-|[]]]]]];
    simpl call_get; simpl res_get;
    cbv [Components.get Groups.get Incidents.get Metrics.get Points.get];
    simpl fst; simpl snd; rewrite Hid; cbv beta iota delta [negb];
    rewrite _get_run by reflexivity; rewrite exchange_wire;
    intros Hw; apply snoc_inj in Hw; subst req;
    unfold json_body_of; simpl req_kwargs;
    first [ apply sent_kwargs_no_data | apply sent_kwargs_data ].
Qed.

(** X10: the three [get] methods without an id parameter.  [Ping.get] and
    [Version.get] ignore every keyword argument: one GET to [ping] or
    [version], with no [data].  [Subscribers.get] sends one GET to
    [subscribers] with all its keyword arguments as JSON [data]. *)
Theorem plain_getters (r : resource) (kwargs : dict) (st : state) :
  In r [RPing; RVersion; RSubscribers] ->
  exists req,
    wire (snd (res_get r (call_get r PNone kwargs) st)) = (wire st ++ [req])%list /\
    req_method req = "GET" /\
    req_url req = url_of (self st) (collection r) /\
    json_body_of req
    = match r with
      | RSubscribers => Some (PStr (json_dumps None (PDict kwargs)))
      | _ => None
      end.
Proof.
  intros Hin. simpl in Hin.
  destruct Hin as [<-|[<-|[<-|[]]]];
    simpl call_get; simpl res_get;
    cbv [Ping.get Version.get Subscribers.get];
    rewrite _get_run by reflexivity; rewrite exchange_wire;
    eexists; (split; [reflexivity|]);
    unfold json_body_of; simpl req_method; simpl req_url; simpl req_kwargs;
    repeat split;
    first [ apply sent_kwargs_no_data | apply sent_kwargs_data ].
Qed.

(** X11: a gated [delete] on an instance with a token sends one DELETE to
    the item path ([<collection>/<id>], and
    [metrics/<metric_id>/points/<point_id>] on Points) with neither body nor
    query-string parameters. *)
Theorem delete_request (r : resource) (a : delete_args r) (st : state) :
  token_gated (Delete r a) = true ->
  is_none (api_token (self st)) = false ->
  exists req,
    wire (snd (res_delete r a st)) = (wire st ++ [req])%list /\
    req_method req = "DELETE" /\
    req_url req = url_of (self st) (delete_path r a) /\
    json_body_of req = None /\
    query_params req = None.
Proof.
  intros Hg Hn.
  destruct r; try discriminate; simpl res_delete; unfold_methods;
    rewrite api_token_required_positional, Hn; cbv beta;
    rewrite _delete_run by reflexivity;
    rewrite exchange_wire; eexists; (split; [reflexivity|]);
    unfold json_body_of, query_params; simpl req_method; simpl req_url;
    simpl req_kwargs; repeat split;
    first [ apply sent_kwargs_no_data | apply sent_kwargs_params; reflexivity ].
Qed.

Lemma dict_setitem_absent k v d :
  dict_get k d = None -> dict_setitem k v d = (d ++ [(k, v)])%list.
Proof.
  induction d as [|[k' v'] d IH]; simpl; [reflexivity|].
  destruct (String.eqb k k'); [discriminate|].
  intros E. now rewrite IH.
Qed.

Lemma with_default_append k v d :
  with_default k v d
  = (d ++ (if dict_contains k d then [] else [(k, v)]))%list.
Proof.
  unfold with_default, dict_setdefault, dict_contains, dict_get_default.
  destruct (dict_get k d) eqn:E.
  - now rewrite app_nil_r.
  - now apply dict_setitem_absent.
Qed.

Lemma dict_get_app_other k k' v d :
  k <> k' -> dict_get k (d ++ [(k', v)])%list = dict_get k d.
Proof.
  intros Hne. induction d as [|[k0 v0] d IH]; simpl.
  - destruct (String.eqb_spec k k'); [contradiction | reflexivity].
  - now rewrite IH.
Qed.

Lemma post_defaults_append r kwargs :
  post_defaults r kwargs = (kwargs ++ missing_defaults r kwargs)%list.
Proof.
  destruct r; unfold post_defaults, missing_defaults, default_table; simpl filter;
    try (now rewrite app_nil_r).
  - rewrite with_default_append. now destruct (dict_contains "enabled" kwargs).
  - rewrite (with_default_append "visible").
    destruct (dict_contains "visible" kwargs) eqn:Ev; simpl negb; cbv iota.
    + rewrite app_nil_r, with_default_append.
      now destruct (dict_contains "notify" kwargs).
    + rewrite with_default_append.
      assert (En : dict_contains "notify" (kwargs ++ [("visible", PBool true)])%list
                   = dict_contains "notify" kwargs).
      { unfold dict_contains. now rewrite dict_get_app_other by discriminate. }
      rewrite En.
      destruct (dict_contains "notify" kwargs); simpl.
      * now rewrite app_nil_r.
      * now rewrite <- app_assoc.
  - rewrite with_default_append.
    now destruct (dict_contains "default_value" kwargs).
Qed.

(** X12: the body of a [post] is the caller's keyword arguments, in the
    caller's order, followed by the defaults the caller left out.  So a value
    the caller gives for a defaulted field is sent as given, and with every
    defaulted field given the body is the caller's map itself. *)
Theorem post_body_is_arguments_then_defaults (r : resource) (kwargs : dict)
  (st : state) (req : request) :
  wire (snd (res_post r kwargs st)) = (wire st ++ [req])%list ->
  json_body_of req
  = Some (PStr (json_dumps None (PDict (kwargs ++ missing_defaults r kwargs)%list))).
Proof.
  intros Hw.
  assert (Hreq : post_required r <> []).
  { destruct r; try discriminate; simpl in Hw; now apply snoc_neq in Hw. }
  rewrite (res_post_run r kwargs st Hreq) in Hw.
  destruct (dict_contains "f" kwargs);
    [simpl in Hw; now apply snoc_neq in Hw|].
  destruct (is_none (api_token (self st)));
    [simpl in Hw; now apply snoc_neq in Hw|].
  destruct (first_missing _ _);
    [simpl in Hw; now apply snoc_neq in Hw|].
  rewrite exchange_wire in Hw. apply snoc_inj in Hw. subst req.
  unfold json_body_of. simpl req_kwargs.
  rewrite sent_kwargs_data. now rewrite post_defaults_append.
Qed.

(** X13: a [put] that goes out carries the id twice: in the path,
    [<collection>/<id>] with the [id] of the keyword arguments, and in the
    body, which is the whole argument map as JSON. *)
Theorem put_sends_id_in_path_and_body (r : resource) (kwargs : dict)
  (st : state) (req : request) :
  wire (snd (res_put r kwargs st)) = (wire st ++ [req])%list ->
  exists id,
    dict_get "id" kwargs = Some id /\
    req_method req = "PUT" /\
    req_url req = url_of (self st) (collection r ++ "/" ++ py_format id) /\
    json_body_of req = Some (PStr (json_dumps None (PDict kwargs))).
Proof.
  intros Hw.
  assert (Hreq : put_required r <> []).
  { destruct r; try discriminate; simpl in Hw; now apply snoc_neq in Hw. }
  rewrite (res_put_run r kwargs st Hreq) in Hw.
  destruct (dict_contains "f" kwargs);
    [simpl in Hw; now apply snoc_neq in Hw|].
  destruct (is_none (api_token (self st)));
    [simpl in Hw; now apply snoc_neq in Hw|].
  destruct (first_missing (put_required r) kwargs) eqn:Hm;
    [simpl in Hw; now apply snoc_neq in Hw|].
  assert (Hid : dict_contains "id" kwargs = true).
  { apply (first_missing_none_contains _ _ _ Hm).
    destruct r; simpl in Hreq |- *; try congruence; auto. }
  unfold dict_contains in Hid.
  destruct (dict_get "id" kwargs) as [id|] eqn:Eid; [|discriminate].
  rewrite exchange_wire in Hw. apply snoc_inj in Hw. subst req.
  exists id. split; [reflexivity|].
  unfold json_body_of, put_path, dict_get_default. simpl req_method.
  simpl req_url. simpl req_kwargs. rewrite Eid, sent_kwargs_data.
  repeat split.
Qed.

(** X14: [check_required_args] returns [True] exactly when every required
    key is a key of the arguments; the value under the key plays no part, so
    a key given as [None] passes. *)
Theorem check_required_args_true_iff (required : list string) (args : dict) :
  check_required_args required args = Ok true <->
  (forall k, In k required -> exists v, dict_get k args = Some v).
Proof.
  induction required as [|k ks IH]; simpl.
  - split; [intros _ k [] | reflexivity].
  - unfold dict_contains. destruct (dict_get k args) as [v|] eqn:E.
    + rewrite IH. split.
      * intros H k' [<-|Hin]; [now exists v | now apply H].
      * intros H k' Hin. apply H. now right.
    + split; [discriminate|].
      intros H. destruct (H k (or_introl eq_refl)) as [v Hv]. congruence.
Qed.

(** *** [_request] called with keyword arguments of the caller's own *)

Lemma _request_run_headers url method kwargs h st :
  dict_get "headers" kwargs = Some (PDict h) ->
  _request url method kwargs st
  = let req :=
      mk_request method url
        (encode_data
           (dict_setitem "headers" (PDict (merged_headers (self st) h))
              (with_config (self st) kwargs))) in
    let st' := mk_state (self st) (wire st ++ [req]) in
    match http_request (wire st) req with
    | inl err => (Raise (RequestException err), st')
    | inr resp =>
        if ok resp then (Ok (resp, decoded resp), st')
        else (Raise (HTTPError resp), st')
    end.
Proof.
  intros Hh. unfold _request.
  unfold bind at 1. unfold get_self at 1. cbv beta iota.
  fold (with_config (self st) kwargs).
  set (k := with_config (self st) kwargs).
  assert (Hk : dict_get "headers" k = Some (PDict h)).
  { subst k. rewrite dict_get_with_config by discriminate. exact Hh. }
  assert (E0 : dict_setdefault "headers" (dict_get_default "headers" (PDict []) k) k
               = k).
  { unfold dict_setdefault, dict_contains. now rewrite Hk. }
  rewrite E0.
  unfold bind, lift.
  rewrite (set_header_on _ _ h) by exact Hk.
  rewrite (set_header_on _ _ _ _ (dict_get_setitem_same _ _ _)).
  rewrite dict_setitem_twice.
  rewrite (set_header_on _ _ _ _ (dict_get_setitem_same _ _ _)).
  rewrite dict_setitem_twice.
  assert (E1 : (if is_none (api_token (self st))
                then ret (dict_setitem "headers"
                       (PDict (dict_setitem "Content-Type" (PStr "application/json")
                         (dict_setitem "Accept" (PStr "application/json")
                           (dict_setitem "User-Agent" (PStr (user_agent (self st))) h)))) k)
                else fun st0 =>
                  (set_header "X-Cachet-Token" (api_token (self st))
                     (dict_setitem "headers"
                       (PDict (dict_setitem "Content-Type" (PStr "application/json")
                         (dict_setitem "Accept" (PStr "application/json")
                           (dict_setitem "User-Agent" (PStr (user_agent (self st))) h)))) k),
                   st0)) st
               = (Ok (dict_setitem "headers" (PDict (merged_headers (self st) h)) k), st)).
  { unfold merged_headers. destruct (is_none (api_token (self st))).
    - reflexivity.
    - rewrite (set_header_on _ _ _ _ (dict_get_setitem_same _ _ _)).
      rewrite dict_setitem_twice. reflexivity. }
  rewrite E1.
  fold (encode_data (dict_setitem "headers" (PDict (merged_headers (self st) h)) k)).
  unfold http_send. cbv zeta.
  destruct (http_request _ _) as [err|resp]; [reflexivity|].
  unfold raise_for_status, decoded.
  destruct (ok resp); reflexivity.
Qed.

Lemma merged_headers_other me h name :
  name <> "User-Agent" -> name <> "Accept" -> name <> "Content-Type" ->
  name <> "X-Cachet-Token" ->
  dict_get name (merged_headers me h) = dict_get name h.
Proof.
  intros H1 H2 H3 H4. unfold merged_headers.
  destruct (is_none (api_token me));
    now rewrite !dict_get_setitem_other by assumption.
Qed.

Lemma merged_headers_fixed me h :
  dict_get "User-Agent" (merged_headers me h) = Some (PStr (user_agent me)) /\
  dict_get "Accept" (merged_headers me h) = Some (PStr "application/json") /\
  dict_get "Content-Type" (merged_headers me h) = Some (PStr "application/json").
Proof.
  unfold merged_headers.
  destruct (is_none (api_token me)); repeat split;
    repeat (rewrite dict_get_setitem_other by discriminate);
    apply dict_get_setitem_same.
Qed.

(** X15: [_request] merges into a [headers] dict of the caller's: the
    caller's other headers go out as given, while [User-Agent], [Accept] and
    [Content-Type] are overwritten with the client's fixed values. *)
Theorem request_merges_caller_headers (url method : string) (kwargs h : dict)
  (st : state) :
  dict_get "headers" kwargs = Some (PDict h) ->
  exists req,
    wire (snd (_request url method kwargs st)) = (wire st ++ [req])%list /\
    req_method req = method /\ req_url req = url /\
    header "User-Agent" req = Some (PStr (user_agent (self st))) /\
    header "Accept" req = Some (PStr "application/json") /\
    header "Content-Type" req = Some (PStr "application/json") /\
    (forall name,
       name <> "User-Agent" -> name <> "Accept" -> name <> "Content-Type" ->
       name <> "X-Cachet-Token" ->
       header name req = dict_get name h).
Proof.
  intros Hh. rewrite (_request_run_headers url method kwargs h st Hh). cbv zeta.
  eexists. split.
  { destruct (http_request _ _) as [err|resp]; [reflexivity|].
    destruct (ok resp); reflexivity. }
  simpl req_method. simpl req_url. unfold header. simpl req_kwargs.
  rewrite dict_get_encode_data_other by discriminate.
  rewrite dict_get_setitem_same.
  destruct (merged_headers_fixed (self st) h) as (E1 & E2 & E3).
  repeat split; try assumption.
  intros name H1 H2 H3 H4. now apply merged_headers_other.
Qed.

(** X16: when the caller's [headers] is not a dict, [_request] stops on a
    [TypeError] at the first header assignment: nothing is sent and the
    state is untouched. *)
Theorem request_rejects_bad_headers (url method : string) (kwargs : dict)
  (v : pyval) (st : state) :
  dict_get "headers" kwargs = Some v ->
  (forall h, v <> PDict h) ->
  exists msg, _request url method kwargs st = (Raise (TypeError msg), st).
Proof.
  intros Hh Hv. unfold _request.
  unfold bind at 1. unfold get_self at 1. cbv beta iota.
  fold (with_config (self st) kwargs).
  set (k := with_config (self st) kwargs).
  assert (Hk : dict_get "headers" k = Some v).
  { subst k. rewrite dict_get_with_config by discriminate. exact Hh. }
  assert (E0 : dict_setdefault "headers" (dict_get_default "headers" (PDict []) k) k
               = k).
  { unfold dict_setdefault, dict_contains. now rewrite Hk. }
  rewrite E0. unfold bind at 1. unfold lift at 1, set_header at 1. rewrite Hk.
  destruct v; try (eexists; reflexivity).
  now contradiction (Hv items).
Qed.

Lemma bad_headers_stop url method kwargs st :
  bad_headers kwargs = true ->
  exists msg, _request url method kwargs st = (Raise (TypeError msg), st).
Proof.
  unfold bad_headers. intros Hb. unfold _request.
  unfold bind at 1. unfold get_self at 1. cbv beta iota.
  fold (with_config (self st) kwargs).
  set (k := with_config (self st) kwargs).
  destruct (dict_get "headers" kwargs) as [v|] eqn:Hh; [|discriminate].
  assert (Hk : dict_get "headers" k = Some v).
  { subst k. rewrite dict_get_with_config by discriminate. exact Hh. }
  assert (E0 : dict_setdefault "headers" (dict_get_default "headers" (PDict []) k) k
               = k).
  { unfold dict_setdefault, dict_contains. now rewrite Hk. }
  rewrite E0. unfold bind at 1. unfold lift at 1, set_header at 1. rewrite Hk.
  destruct v; try discriminate; eexists; reflexivity.
Qed.

Lemma _request_wire url method kwargs st :
  bad_headers kwargs = false ->
  wire (snd (_request url method kwargs st))
  = (wire st ++ [mk_request method url (request_kwargs (self st) kwargs)])%list.
Proof.
  unfold bad_headers, request_kwargs, final_headers. intros Hb.
  destruct (dict_get "headers" kwargs) as [v|] eqn:Hh.
  - destruct v; try discriminate.
    rewrite (_request_run_headers url method kwargs items st Hh). cbv zeta.
    destruct (http_request _ _) as [err|resp]; [reflexivity|].
    destruct (ok resp); reflexivity.
  - rewrite _request_run by exact Hh. cbv zeta. unfold sent_kwargs.
    destruct (http_request _ _) as [err|resp]; [reflexivity|].
    destruct (ok resp); reflexivity.
Qed.

Lemma request_kwargs_config key me kwargs :
  key <> "data" -> key <> "headers" ->
  dict_get key (request_kwargs me kwargs) = dict_get key (with_config me kwargs).
Proof.
  intros Hd Hh. unfold request_kwargs.
  rewrite dict_get_encode_data_other by exact Hd.
  now rewrite dict_get_setitem_other by exact Hh.
Qed.

(** X17: in [_request] a [timeout] or [verify] given for the one call wins
    over the instance's: the instance's value is used only when the call
    gives none, and when both are missing the key is left out.  This holds of
    the request of every call of [_request] that sends one, with or without
    a [headers] dict of the caller's; a [headers] that is not a dict stops
    the call on a [TypeError] before anything is sent. *)
Theorem request_caller_settings_win (url method : string) (kwargs : dict)
  (st : state) :
  if bad_headers kwargs
  then exists msg, _request url method kwargs st = (Raise (TypeError msg), st)
  else exists req,
         wire (snd (_request url method kwargs st)) = (wire st ++ [req])%list /\
         dict_get "timeout" (req_kwargs req)
         = match dict_get "timeout" kwargs with
           | Some t => Some t
           | None => if is_none (timeout (self st)) then None
                     else Some (timeout (self st))
           end /\
         dict_get "verify" (req_kwargs req)
         = match dict_get "verify" kwargs with
           | Some t => Some t
           | None => if is_none (verify (self st)) then None
                     else Some (verify (self st))
           end.
Proof.
  destruct (bad_headers kwargs) eqn:Hb; [now apply bad_headers_stop|].
  eexists. split; [apply _request_wire; exact Hb|].
  simpl req_kwargs. rewrite !request_kwargs_config by discriminate.
  split; [apply with_config_timeout | apply with_config_verify].
Qed.

(** X18: of the caller's keyword arguments [_request] rewrites [data]
    alone, replacing it by its JSON text (also when it is [None]); every
    keyword other than [data], [headers], [timeout] and [verify], such as
    [params], reaches [session.request] as given.  This holds of the request
    of every call of [_request] that sends one, with or without a [headers]
    dict of the caller's; a [headers] that is not a dict stops the call on a
    [TypeError] before anything is sent. *)
Theorem request_encodes_data_only (url method : string) (kwargs : dict)
  (st : state) :
  if bad_headers kwargs
  then exists msg, _request url method kwargs st = (Raise (TypeError msg), st)
  else exists req,
         wire (snd (_request url method kwargs st)) = (wire st ++ [req])%list /\
         req_method req = method /\ req_url req = url /\
         dict_get "data" (req_kwargs req)
         = option_map (fun d => PStr (json_dumps None d)) (dict_get "data" kwargs) /\
         (forall key,
            key <> "data" -> key <> "headers" -> key <> "timeout" ->
            key <> "verify" ->
            dict_get key (req_kwargs req) = dict_get key kwargs).
Proof.
  destruct (bad_headers kwargs) eqn:Hb; [now apply bad_headers_stop|].
  eexists. split; [apply _request_wire; exact Hb|].
  simpl req_method. simpl req_url. simpl req_kwargs. repeat split.
  - unfold request_kwargs, encode_data.
    assert (E : dict_get "data"
                  (dict_setitem "headers" (PDict (final_headers (self st) kwargs))
                     (with_config (self st) kwargs))
                = dict_get "data" kwargs).
    { rewrite dict_get_setitem_other by discriminate.
      now rewrite dict_get_with_config by discriminate. }
    destruct (dict_get "data" kwargs) as [d|] eqn:Ed; rewrite E; simpl.
    + apply dict_get_setitem_same.
    + exact E.
  - intros key H1 H2 H3 H4.
    rewrite request_kwargs_config by assumption.
    now apply dict_get_with_config.
Qed.

(** *** Calls in a row *)

(** X19: over any run of calls on one instance, each of which returns or
    raises, the instance stays as it was and the wire only grows: what was on
    it stays, in place, and at most one request per call is added. *)
Theorem session_invariants (cs : list call) (st : state) :
  self (snd (calls_in_turn cs st)) = self st /\
  exists sent,
    wire (snd (calls_in_turn cs st)) = (wire st ++ sent)%list /\
    length sent <= length cs.
Proof.
  revert st. induction cs as [|c cs IH]; intros st; simpl.
  - split; [reflexivity|]. exists []. now rewrite app_nil_r.
  - destruct (IH (snd (invoke c st))) as (Hs & sent & Hw & Hn).
    rewrite Hs, client_unchanged_aux. split; [reflexivity|].
    destruct (at_most_one_aux c st) as [E|[req E]]; rewrite Hw, E.
    + exists sent. split; [reflexivity | lia].
    + exists (req :: sent). rewrite <- app_assoc. split; [reflexivity | simpl; lia].
Qed.

(** *** The decorator's own parameter *)

(** X24: a decorated [post] or [put] called with a keyword argument named
    [f] never runs: the keyword collides with the first parameter of
    [api_token_required], so the call raises [TypeError] with nothing sent
    and the state untouched, whatever the token and the other arguments. *)
Theorem keyword_f_collides (c : call) (st : state) :
  collides c = true ->
  invoke c st = (Raise KeywordCollision, st).
Proof.
  unfold collides. intros Hc. apply andb_prop in Hc as [Hg Hf].
  destruct c as [r a|r kwargs|r kwargs|r a]; try discriminate;
    destruct r; try discriminate; simpl in Hf; simpl invoke;
    cbv [res_post res_put
         Components.post Groups.post Incidents.post Metrics.post Points.post
         Subscribers.post Components.put Groups.put Incidents.put];
    rewrite api_token_required_run, Hf; reflexivity.
Qed.

(** ** Beyond the claims: the Sensu handler *)

Lemma create_incident_run (ENDPOINT API_TOKEN : pyval) (kwargs : dict)
  (w : list request) :
  sensu_cachet.create_incident ENDPOINT API_TOKEN kwargs w
  = match first_missing (sensu_cachet.incident_fields kwargs) kwargs with
    | Some k => (Raise (KeyError k), w)
    | None =>
        on_instance (Incidents.post (incident_arguments kwargs))
          (mk_client "python-cachetclient" ENDPOINT API_TOKEN PNone PNone) w
    end.
Proof.
  unfold sensu_cachet.create_incident.
  change (Incidents.__init__ [("endpoint", ENDPOINT); ("api_token", API_TOKEN)] w)
    with (Ok (mk_client "python-cachetclient" ENDPOINT API_TOKEN PNone PNone), w).
  cbv beta iota zeta.
  unfold incident_arguments, sensu_cachet.incident_fields, first_missing.
  destruct (dict_contains "component_id" kwargs);
    cbv beta iota delta [find map negb rbind getitem dict_get_default dict_contains];
    repeat (match goal with
            | |- context [match dict_get ?k kwargs with _ => _ end] =>
                destruct (dict_get k kwargs)
            end;
            cbv beta iota delta [negb]; try reflexivity).
Qed.

(** X20: [create_incident] reads [name], [message] and [status] (and, when
    [component_id] is given, [component_id] and [component_status]) before
    it calls the library: if one is missing it raises the plain [KeyError]
    of the first missing one and nothing is sent, with or without a token. *)
Theorem create_incident_missing_field (ENDPOINT API_TOKEN : pyval)
  (kwargs : dict) (w : list request) (k : string) :
  first_missing (sensu_cachet.incident_fields kwargs) kwargs = Some k ->
  sensu_cachet.create_incident ENDPOINT API_TOKEN kwargs w = (Raise (KeyError k), w).
Proof. intros H. now rewrite create_incident_run, H. Qed.

Lemma incident_arguments_complete kwargs :
  post_defaults RIncidents (incident_arguments kwargs)
  = (incident_arguments kwargs
     ++ [("visible", PBool true); ("notify", PBool false)])%list /\
  first_missing (post_required RIncidents)
    (post_defaults RIncidents (incident_arguments kwargs)) = None /\
  dict_contains "f" (incident_arguments kwargs) = false.
Proof.
  unfold incident_arguments, sensu_cachet.incident_fields.
  destruct (dict_contains "component_id" kwargs); repeat split; reflexivity.
Qed.

(** X21: with its fields present, [create_incident] on a configured token
    sends one POST to [<ENDPOINT>/incidents], under that token, whose body
    is the fields it read followed by [visible=True] and [notify=False]:
    any other keyword argument, [visible] and [notify] included, is dropped.
    With [API_TOKEN] [None] it stops on the gate and sends nothing. *)
Theorem create_incident_posts (ENDPOINT API_TOKEN : pyval) (kwargs : dict)
  (w : list request) :
  first_missing (sensu_cachet.incident_fields kwargs) kwargs = None ->
  if is_none API_TOKEN
  then sensu_cachet.create_incident ENDPOINT API_TOKEN kwargs w
       = (Raise AuthRequired, w)
  else exists req,
         snd (sensu_cachet.create_incident ENDPOINT API_TOKEN kwargs w)
         = (w ++ [req])%list /\
         req_method req = "POST" /\
         req_url req = py_format ENDPOINT ++ "/incidents" /\
         header "X-Cachet-Token" req = Some API_TOKEN /\
         json_body_of req
         = Some (PStr (json_dumps None
                         (PDict (incident_arguments kwargs
                                 ++ [("visible", PBool true);
                                     ("notify", PBool false)])%list))).
Proof.
  intros H. rewrite create_incident_run, H. unfold on_instance.
  change (Incidents.post (incident_arguments kwargs))
    with (res_post RIncidents (incident_arguments kwargs)).
  rewrite res_post_run by discriminate.
  destruct (incident_arguments_complete kwargs) as (Ed & Em & Ef).
  rewrite Ef, Em, Ed. simpl self. simpl api_token.
  destruct (is_none API_TOKEN) eqn:Ht; [reflexivity|].
  rewrite exchange_wire. eexists. split; [reflexivity|].
  simpl req_method. simpl req_url. unfold json_body_of. simpl req_kwargs.
  rewrite header_sent, std_headers_token. simpl api_token. rewrite Ht.
  rewrite sent_kwargs_data. repeat split.
Qed.

Lemma get_component_run (json_loads : string -> option pyval)
  (ENDPOINT id : pyval) (w : list request) :
  sensu_cachet.get_component json_loads ENDPOINT id w
  = let out :=
      exchange "GET" (component_path id) (if is_none id then data_kw [] else [])
        (fun d => PStr (json_dumps (Some 2) d))
        (mk_state (anonymous_at ENDPOINT) w) in
    match fst out with
    | Raise e => (Raised e, wire (snd out))
    | Ok (PStr s) =>
        match json_loads s with
        | None => (RaisedValueError, wire (snd out))
        | Some component =>
            match subscript "data" component with
            | Ok v => (Returned v, wire (snd out))
            | Raise e => (Raised e, wire (snd out))
            end
        end
    | Ok _ =>
        (Raised (TypeError "the JSON object must be str, bytes or bytearray"),
         wire (snd out))
    end.
Proof.
  unfold sensu_cachet.get_component, component_path.
  change (Components.__init__ [("endpoint", ENDPOINT)] w)
    with (Ok (anonymous_at ENDPOINT), w).
  cbv beta iota zeta. unfold on_instance, Components.get. cbv zeta.
  destruct (is_none id); cbv beta iota delta [negb];
    rewrite _get_run by reflexivity; reflexivity.
Qed.

(** X22: [get_component] asks anonymously: whatever the id, it sends exactly
    one GET with no [X-Cachet-Token] header, to
    [<ENDPOINT>/components/<id>], and, when the id is [None], to the whole
    collection [<ENDPOINT>/components] instead. *)
Theorem get_component_request (json_loads : string -> option pyval)
  (ENDPOINT id : pyval) (w : list request) :
  exists req,
    snd (sensu_cachet.get_component json_loads ENDPOINT id w) = (w ++ [req])%list /\
    req_method req = "GET" /\
    req_url req
    = py_format ENDPOINT ++ "/" ++
      (if is_none id then "components" else "components/" ++ py_format id) /\
    header "X-Cachet-Token" req = None.
Proof.
  rewrite get_component_run. cbv zeta.
  pose proof (exchange_wire "GET" (component_path id)
                (if is_none id then data_kw [] else [])
                (fun d => PStr (json_dumps (Some 2) d))
                (mk_state (anonymous_at ENDPOINT) w)) as Hw.
  simpl wire in Hw at 2. simpl self in Hw.
  eexists. split.
  - destruct (fst (exchange _ _ _ _ _)) as [[| | | |s| |]|e]; simpl; try exact Hw.
    destruct (json_loads s) as [component|]; simpl; [|exact Hw].
    destruct (subscript "data" component); simpl; exact Hw.
  - simpl req_method. simpl req_url. rewrite header_sent.
    unfold url_of, component_path. simpl endpoint. repeat split.
Qed.

(** X23: what [get_component] returns.  On a reply with a failure status it
    raises the [HTTPError] and [json.loads] is not reached.  On a success
    status, [json.loads] giving back the document the library printed, it
    returns the [data] member of the reply; an object without [data] makes it
    raise [KeyError], and anything that is not an object (an undecodable
    body among them, which the library prints as [null]) a [TypeError]. *)
Theorem get_component_result (json_loads : string -> option pyval)
  (ENDPOINT id : pyval) (w : list request) (resp : response) :
  http_request w
    (mk_request "GET" (py_format ENDPOINT ++ "/" ++ component_path id)
       (sent_kwargs (anonymous_at ENDPOINT)
          (if is_none id then data_kw [] else [])))
  = inr resp ->
  (ok resp = true ->
   json_loads (json_dumps (Some 2) (decoded resp)) = Some (decoded resp)) ->
  if ok resp
  then match decoded resp with
       | PDict d =>
           fst (sensu_cachet.get_component json_loads ENDPOINT id w)
           = match dict_get "data" d with
             | Some v => Returned v
             | None => Raised (KeyError "data")
             end
       | _ =>
           exists msg,
             fst (sensu_cachet.get_component json_loads ENDPOINT id w)
             = Raised (TypeError msg)
       end
  else fst (sensu_cachet.get_component json_loads ENDPOINT id w)
       = Raised (HTTPError resp).
Proof.
  intros Hr Hl. rewrite get_component_run. cbv zeta.
  unfold exchange. cbv zeta. simpl self. simpl wire.
  unfold url_of. simpl endpoint. rewrite Hr.
  destruct (ok resp); [|reflexivity]. simpl fst. cbv iota.
  rewrite (Hl eq_refl). unfold subscript, getitem.
  destruct (decoded resp); try (eexists; reflexivity).
  destruct (dict_get "data" items); reflexivity.
Qed.

End Calls.

(** ** The client at work on the reference runtime *)

(** The POST of the round trip: one request to [components], token in the
    headers, the keyword arguments as JSON in [data]. *)
Example components_post_round_trip :
  @Components.post stub_runtime
    [("name", PStr "X"); ("status", PInt 1); ("enabled", PBool true)]
    (fresh authenticated)
  = (Ok (PStr (json_encode (Some 2) 0 echo_body)),
     mk_state authenticated
       [mk_request "POST" "http://host/api/v1/components"
          [("data",
            PStr (json_encode None 0
                    (PDict [("name", PStr "X"); ("status", PInt 1);
                            ("enabled", PBool true)])));
           ("headers",
            PDict [("User-Agent", PStr "python-cachetclient");
                   ("Accept", PStr "application/json");
                   ("Content-Type", PStr "application/json");
                   ("X-Cachet-Token", PStr "t")])]]).
Proof. reflexivity. Qed.

(** Two-space indentation, one level per nesting depth. *)
Example pretty_echo_body :
  json_encode (Some 2) 0 echo_body
  = "{" ++ newline ++
    "  " ++ dquote ++ "data" ++ dquote ++ ": {" ++ newline ++
    "    " ++ dquote ++ "id" ++ dquote ++ ": 42," ++ newline ++
    "    " ++ dquote ++ "name" ++ dquote ++ ": " ++ dquote ++ "X" ++ dquote ++ newline ++
    "  }" ++ newline ++
    "}".
Proof. reflexivity. Qed.

Example undecodable_body_is_null :
  fst (@Ping.get blank_runtime [] (fresh anonymous)) = Ok (PStr "null").
Proof. reflexivity. Qed.

(** ** Instances of the theorems *)

Lemma get_request_paths_witness :
  In RComponents [RComponents; RGroups; RIncidents; RMetrics; RPoints] /\
  exists req,
    wire (snd (@res_get stub_runtime RComponents (PNone, [("name", PStr "X")])
                 (fresh anonymous)))
    = ([] ++ [req])%list /\
    req_method req = "GET" /\
    req_url req = "http://host/api/v1/components" /\
    json_body_of req
    = Some (PStr (json_encode None 0 (PDict [("name", PStr "X")]))) /\
    query_params req = None.
Proof.
  split; [simpl; auto|].
  exact (@get_request_paths stub_runtime RComponents PNone [("name", PStr "X")]
           (fresh anonymous) (or_introl eq_refl)).
Defined.

Lemma token_gate_witness :
  mutating (Post RComponents [("name", PStr "X"); ("status", PInt 1)]) = true /\
  @invoke stub_runtime (Post RComponents [("name", PStr "X"); ("status", PInt 1)])
    (fresh anonymous)
  = (Raise AuthRequired, fresh anonymous) /\
  @invoke stub_runtime (Post RComponents [("name", PStr "X"); ("status", PInt 1)])
    (fresh authenticated)
  = @Components.post_wrapped stub_runtime [("name", PStr "X"); ("status", PInt 1)]
      (fresh authenticated).
Proof.
  split; [reflexivity|]. split.
  - exact (proj1 (@token_gate stub_runtime
                    (Post RComponents [("name", PStr "X"); ("status", PInt 1)])
                    (fresh anonymous) eq_refl eq_refl) eq_refl).
  - exact (proj1 (proj2 (@token_gate stub_runtime
                           (Post RComponents [("name", PStr "X"); ("status", PInt 1)])
                           (fresh authenticated) eq_refl eq_refl) eq_refl)).
Defined.

Lemma post_defaults_dispatched_witness :
  dict_contains "enabled" [("name", PStr "X"); ("status", PInt 1)] = false /\
  exists req,
    wire (snd (@res_post stub_runtime RComponents
                 [("name", PStr "X"); ("status", PInt 1)] (fresh authenticated)))
    = ([] ++ [req])%list /\
    req_method req = "POST" /\
    req_url req = "http://host/api/v1/components" /\
    json_body_of req
    = Some (PStr (json_encode None 0
                    (PDict [("name", PStr "X"); ("status", PInt 1);
                            ("enabled", PBool true)]))) /\
    dict_get "enabled"
      [("name", PStr "X"); ("status", PInt 1); ("enabled", PBool true)]
    = Some (PBool true).
Proof.
  split; [reflexivity|].
  exact (proj2 (proj2
           (@post_defaults_dispatched stub_runtime RComponents "enabled" (PBool true)
              [("name", PStr "X"); ("status", PInt 1)] (fresh authenticated)
              (or_introl eq_refl) eq_refl)) eq_refl eq_refl eq_refl).
Defined.

Lemma required_args_checked_witness :
  post_required RIncidents <> [] /\
  put_required RGroups <> [] /\
  @res_post stub_runtime RIncidents [("name", PStr "X"); ("status", PInt 1)]
    (fresh authenticated)
  = (Raise (MissingArgument "message"), fresh authenticated) /\
  exists req,
    wire (snd (@res_put stub_runtime RGroups [("id", PInt 7)] (fresh authenticated)))
    = ([] ++ [req])%list /\
    req_method req = "PUT" /\
    req_url req = "http://host/api/v1/components/groups/7".
Proof.
  assert (Hpost : post_required RIncidents <> []) by discriminate.
  assert (Hput : put_required RGroups <> []) by discriminate.
  split; [exact Hpost|]. split; [exact Hput|]. split.
  - exact (proj1 (@required_args_checked stub_runtime RIncidents
                    [("name", PStr "X"); ("status", PInt 1)]
                    (fresh authenticated) eq_refl) Hpost).
  - exact (proj2 (@required_args_checked stub_runtime RGroups [("id", PInt 7)]
                    (fresh authenticated) eq_refl) Hput).
Defined.

Lemma delete_returns_true_witness :
  fst (@res_delete stub_runtime RComponents (PInt 1) (fresh authenticated))
  = Ok (PBool true) /\
  fst (@res_delete down_runtime RPoints (PInt 1, PInt 2) (fresh authenticated))
  = Raise (HTTPError (mk_response 503 "<html>down</html>" None)) /\
  exists req,
    wire (snd (@res_delete stub_runtime RSubscribers (PInt 4) (fresh authenticated)))
    = ([] ++ [req])%list /\
    req_method req = "DELETE" /\
    fst (@res_delete stub_runtime RSubscribers (PInt 4) (fresh authenticated))
    = Ok (PBool true).
Proof.
  split; [|split].
  - refine (proj1 (proj2 (@delete_returns_true stub_runtime RComponents (PInt 1)
                            (fresh authenticated))
                     (mk_request "DELETE" "http://host/api/v1/components/1"
                        (@sent_kwargs stub_runtime authenticated []))
                     (mk_response 204 EmptyString None) eq_refl eq_refl) eq_refl).
  - refine (proj2 (proj2 (@delete_returns_true down_runtime RPoints (PInt 1, PInt 2)
                            (fresh authenticated))
                     (mk_request "DELETE" "http://host/api/v1/metrics/1/points/2"
                        (@sent_kwargs down_runtime authenticated []))
                     (mk_response 503 "<html>down</html>" None) eq_refl eq_refl)
              eq_refl).
  - destruct (proj1 (@delete_returns_true stub_runtime RSubscribers (PInt 4)
                       (fresh authenticated))) as (req & Hw & Hm & Hr).
    exists req. split; [exact Hw|]. split; [exact Hm|].
    simpl http_request in Hr. unfold stub_service in Hr.
    rewrite Hm in Hr. exact Hr.
Defined.

Lemma readers_return_pretty_json_witness :
  fst (@invoke stub_runtime (Get RVersion []) (fresh anonymous))
  = Ok (PStr (json_encode (Some 2) 0 echo_body)) /\
  fst (@invoke blank_runtime (Put RComponents [("id", PInt 3)]) (fresh authenticated))
  = Ok (PStr "null") /\
  exists req,
    wire (snd (@invoke stub_runtime (Get RIncidents (PNone, [])) (fresh anonymous)))
    = ([] ++ [req])%list /\
    req_method req = "GET" /\
    fst (@invoke stub_runtime (Get RIncidents (PNone, [])) (fresh anonymous))
    = Ok (PStr (json_encode (Some 2) 0 echo_body)).
Proof.
  split; [|split].
  - refine (proj1 (proj2 (@readers_return_pretty_json stub_runtime (Get RVersion [])
                            (fresh anonymous) eq_refl)
                     (mk_request "GET" "http://host/api/v1/version"
                        (@sent_kwargs stub_runtime anonymous []))
                     (mk_response 200 (json_encode None 0 echo_body) (Some echo_body))
                     eq_refl eq_refl eq_refl)).
  - refine (proj2 (proj2 (@readers_return_pretty_json blank_runtime
                            (Put RComponents [("id", PInt 3)]) (fresh authenticated)
                            eq_refl)
                     (mk_request "PUT" "http://host/api/v1/components/3"
                        (@sent_kwargs blank_runtime authenticated
                           (data_kw [("id", PInt 3)])))
                     (mk_response 200 EmptyString None)
                     eq_refl eq_refl eq_refl) eq_refl).
  - destruct (proj1 (@readers_return_pretty_json stub_runtime
                       (Get RIncidents (PNone, [])) (fresh anonymous) eq_refl))
      as (req & Hw & Hm & Hr).
    exists req. split; [exact Hw|]. split; [exact Hm|].
    simpl http_request in Hr. unfold stub_service in Hr.
    simpl method_of in Hm. rewrite Hm in Hr. exact Hr.
Defined.

Lemma points_get_requires_metric_id_witness :
  is_none (PInt 9) = false /\
  exists req,
    wire (snd (@Points.get stub_runtime (PInt 9) [] (fresh anonymous)))
    = ([] ++ [req])%list /\
    req_method req = "GET" /\
    req_url req = "http://host/api/v1/metrics/9/points".
Proof.
  split; [reflexivity|].
  exact (proj2 (@points_get_requires_metric_id stub_runtime (PInt 9) []
                  (fresh anonymous)) eq_refl).
Defined.


Lemma construction_requires_endpoint_witness :
  dict_get "endpoint" [("api_token", PStr "t")] = None /\
  construct (KResource RIncidents) [("api_token", PStr "t")] []
  = (Raise ConfigurationError, []) /\
  exists me,
    construct (KResource RPing) [("endpoint", PStr "http://host/api/v1")] []
    = (Ok me, []) /\
    endpoint me = PStr "http://host/api/v1" /\
    api_token me = PNone /\ timeout me = PNone /\ verify me = PNone.
Proof.
  split; [reflexivity|]. split.
  - exact (proj1 (construction_requires_endpoint (KResource RIncidents)
                    [("api_token", PStr "t")] []) eq_refl).
  - exact (proj2 (construction_requires_endpoint (KResource RPing)
                    [("endpoint", PStr "http://host/api/v1")] [])
             (PStr "http://host/api/v1") eq_refl).
Defined.

(** ** Where the code departs from the spec's wording *)

(** [Points.get] without an id sends nothing, and the listing of Components
    puts its keyword arguments in [data], not in [params]. *)
Lemma get_listing_counterexample :
  ~ @listing_forwards_query stub_runtime RPoints [("per_page", PInt 5)]
      (fresh anonymous) /\
  ~ @listing_forwards_query stub_runtime RComponents [("name", PStr "X")]
      (fresh anonymous).
Proof.
  split; intros (req & Hw & Hu & Hq).
  - vm_compute in Hw. discriminate Hw.
  - vm_compute in Hw. injection Hw as <-. vm_compute in Hq. discriminate Hq.
Qed.

(** [Metrics.put] is the base class's: without a token it raises
    [UnimplementedException], not [AuthRequired]. *)
Lemma gate_counterexample :
  ~ @gate_on_every_mutation stub_runtime (Put RMetrics [("id", PInt 1)])
      (fresh anonymous).
Proof.
  intros H. specialize (H eq_refl eq_refl). vm_compute in H. discriminate H.
Qed.

(** Without a token, [Groups.post] stops on the gate: no [MissingArgument]
    when [name] is absent, no request when it is present. *)
Lemma required_check_counterexample :
  ~ @required_check_decides stub_runtime RGroups [] (fresh anonymous) /\
  ~ @required_check_decides stub_runtime RGroups [("name", PStr "X")]
      (fresh anonymous).
Proof.
  split; intros H.
  - assert (Hne : post_required RGroups <> []) by discriminate.
    specialize (H Hne). vm_compute in H. discriminate H.
  - assert (Hne : post_required RGroups <> []) by discriminate.
    specialize (H Hne). vm_compute in H. destruct H as (req & Hw & _).
    discriminate Hw.
Qed.

(** ** Instances of the further theorems *)

Lemma fixed_headers_on_every_request_witness :
  header "User-Agent"
    (mk_request "GET" "http://host/api/v1/ping" (@sent_kwargs stub_runtime anonymous []))
  = Some (PStr "python-cachetclient") /\
  header "Accept"
    (mk_request "GET" "http://host/api/v1/ping" (@sent_kwargs stub_runtime anonymous []))
  = Some (PStr "application/json") /\
  header "Content-Type"
    (mk_request "GET" "http://host/api/v1/ping" (@sent_kwargs stub_runtime anonymous []))
  = Some (PStr "application/json").
Proof.
  exact (@fixed_headers_on_every_request stub_runtime (Get RPing [])
           (fresh anonymous) _ eq_refl).
Defined.

Lemma token_header_follows_instance_witness :
  header "X-Cachet-Token"
    (mk_request "DELETE" "http://host/api/v1/components/1"
       (@sent_kwargs stub_runtime authenticated []))
  = Some (PStr "t") /\
  header "X-Cachet-Token"
    (mk_request "GET" "http://host/api/v1/ping" (@sent_kwargs stub_runtime anonymous []))
  = None.
Proof.
  split.
  - exact (@token_header_follows_instance stub_runtime (Delete RComponents (PInt 1))
             (fresh authenticated) _ eq_refl).
  - exact (@token_header_follows_instance stub_runtime (Get RPing [])
             (fresh anonymous) _ eq_refl).
Defined.

Lemma timeout_and_verify_forwarded_witness :
  dict_get "timeout"
    (req_kwargs (mk_request "GET" "http://host/api/v1/version"
                   (@sent_kwargs stub_runtime empty_token [])))
  = Some (PInt 5) /\
  dict_get "verify"
    (req_kwargs (mk_request "GET" "http://host/api/v1/version"
                   (@sent_kwargs stub_runtime empty_token [])))
  = Some (PBool false).
Proof.
  exact (@timeout_and_verify_forwarded stub_runtime (Get RVersion [])
           (fresh empty_token) _ eq_refl).
Defined.

Lemma failure_kinds_witness :
  exists req,
    wire (snd (@invoke down_runtime (Get RPing []) (fresh anonymous)))
    = ([] ++ [req])%list.
Proof.
  destruct (@failure_kinds down_runtime (Get RPing []) (fresh anonymous)
              (HTTPError (mk_response 503 "<html>down</html>" None)) eq_refl)
    as [[Hl _]|[req [Hw _]]].
  - destruct Hl.
  - exists req. exact Hw.
Defined.

Lemma success_needs_ok_reply_witness :
  exists req resp,
    wire (snd (@invoke stub_runtime (Get RPing []) (fresh anonymous)))
    = ([] ++ [req])%list /\
    stub_service [] req = inr resp /\
    ok resp = true /\
    PStr (json_encode (Some 2) 0 echo_body)
    = PStr (json_encode (Some 2) 0 (decoded resp)).
Proof.
  exact (@success_needs_ok_reply stub_runtime (Get RPing []) (fresh anonymous)
           (PStr (json_encode (Some 2) 0 echo_body)) eq_refl).
Defined.

Lemma transport_failure_propagates_witness :
  fst (@invoke offline_runtime (Post RGroups [("name", PStr "G")])
         (fresh authenticated))
  = Raise (RequestException "connection refused").
Proof.
  exact (@transport_failure_propagates offline_runtime
           (Post RGroups [("name", PStr "G")]) (fresh authenticated)
           (mk_request "POST" "http://host/api/v1/components/groups"
              (@sent_kwargs offline_runtime authenticated
                 (data_kw [("name", PStr "G")])))
           "connection refused" eq_refl eq_refl).
Defined.

Lemma get_by_id_body_witness :
  json_body_of
    (mk_request "GET" "http://host/api/v1/components/1"
       (@sent_kwargs stub_runtime anonymous []))
  = None /\
  json_body_of
    (mk_request "GET" "http://host/api/v1/incidents/1"
       (@sent_kwargs stub_runtime anonymous (data_kw [("page", PInt 2)])))
  = Some (PStr (json_encode None 0 (PDict [("page", PInt 2)]))).
Proof.
  split.
  - exact (@get_by_id_body stub_runtime RComponents (PInt 1) [("page", PInt 2)]
             (fresh anonymous) _ (or_introl eq_refl) eq_refl eq_refl).
  - exact (@get_by_id_body stub_runtime RIncidents (PInt 1) [("page", PInt 2)]
             (fresh anonymous) _ (or_intror (or_intror (or_introl eq_refl)))
             eq_refl eq_refl).
Defined.

Lemma plain_getters_witness :
  exists req,
    wire (snd (@res_get stub_runtime RPing [("page", PInt 2)] (fresh anonymous)))
    = ([] ++ [req])%list /\
    req_method req = "GET" /\
    req_url req = "http://host/api/v1/ping" /\
    json_body_of req = None.
Proof.
  exact (@plain_getters stub_runtime RPing [("page", PInt 2)] (fresh anonymous)
           (or_introl eq_refl)).
Defined.

Lemma delete_request_witness :
  exists req,
    wire (snd (@res_delete stub_runtime RPoints (PInt 1, PInt 2)
                 (fresh authenticated)))
    = ([] ++ [req])%list /\
    req_method req = "DELETE" /\
    req_url req = "http://host/api/v1/metrics/1/points/2" /\
    json_body_of req = None /\
    query_params req = None.
Proof.
  exact (@delete_request stub_runtime RPoints (PInt 1, PInt 2)
           (fresh authenticated) eq_refl eq_refl).
Defined.

Lemma post_body_is_arguments_then_defaults_witness :
  json_body_of
    (mk_request "POST" "http://host/api/v1/incidents"
       (@sent_kwargs stub_runtime authenticated
          (data_kw [("name", PStr "N"); ("notify", PBool true);
                    ("message", PStr "M"); ("status", PInt 1);
                    ("visible", PBool true)])))
  = Some (PStr (json_encode None 0
                  (PDict [("name", PStr "N"); ("notify", PBool true);
                          ("message", PStr "M"); ("status", PInt 1);
                          ("visible", PBool true)]))).
Proof.
  exact (@post_body_is_arguments_then_defaults stub_runtime RIncidents
           [("name", PStr "N"); ("notify", PBool true); ("message", PStr "M");
            ("status", PInt 1)]
           (fresh authenticated) _ eq_refl).
Defined.

Lemma put_sends_id_in_path_and_body_witness :
  exists id,
    dict_get "id" [("id", PInt 7); ("name", PStr "G")] = Some id /\
    req_method
      (mk_request "PUT" "http://host/api/v1/components/groups/7"
         (@sent_kwargs stub_runtime authenticated
            (data_kw [("id", PInt 7); ("name", PStr "G")])))
    = "PUT" /\
    "http://host/api/v1/components/groups/7"
    = @url_of stub_runtime authenticated
        ("components/groups" ++ "/" ++ @py_format stub_runtime id) /\
    json_body_of
      (mk_request "PUT" "http://host/api/v1/components/groups/7"
         (@sent_kwargs stub_runtime authenticated
            (data_kw [("id", PInt 7); ("name", PStr "G")])))
    = Some (PStr (json_encode None 0 (PDict [("id", PInt 7); ("name", PStr "G")]))).
Proof.
  exact (@put_sends_id_in_path_and_body stub_runtime RGroups
           [("id", PInt 7); ("name", PStr "G")] (fresh authenticated) _ eq_refl).
Defined.

Lemma request_merges_caller_headers_witness :
  exists req,
    wire (snd (@_request stub_runtime "http://host/x" "GET"
                 [("headers", PDict [("X-Trace", PStr "1"); ("Accept", PStr "text/html")])]
                 (fresh anonymous)))
    = ([] ++ [req])%list /\
    header "Accept" req = Some (PStr "application/json") /\
    header "X-Trace" req = Some (PStr "1").
Proof.
  destruct (@request_merges_caller_headers stub_runtime "http://host/x" "GET"
              [("headers", PDict [("X-Trace", PStr "1"); ("Accept", PStr "text/html")])]
              [("X-Trace", PStr "1"); ("Accept", PStr "text/html")]
              (fresh anonymous) eq_refl)
    as (req & Hw & _ & _ & _ & Ha & _ & Ho).
  exists req. split; [exact Hw|]. split; [exact Ha|].
  rewrite Ho by discriminate. reflexivity.
Defined.

Lemma request_rejects_bad_headers_witness :
  exists msg,
    @_request stub_runtime "http://host/x" "GET" [("headers", PStr "Accept: */*")]
      (fresh anonymous)
    = (Raise (TypeError msg), fresh anonymous).
Proof.
  apply (@request_rejects_bad_headers stub_runtime "http://host/x" "GET"
           [("headers", PStr "Accept: */*")] (PStr "Accept: */*") (fresh anonymous)).
  - reflexivity.
  - discriminate.
Defined.

Lemma request_caller_settings_win_witness :
  exists req,
    wire (snd (@_request stub_runtime "http://host/x" "GET"
                 [("timeout", PInt 1); ("headers", PDict [("X-Trace", PStr "1")])]
                 (fresh empty_token)))
    = ([] ++ [req])%list /\
    dict_get "timeout" (req_kwargs req) = Some (PInt 1) /\
    dict_get "verify" (req_kwargs req) = Some (PBool false).
Proof.
  exact (@request_caller_settings_win stub_runtime "http://host/x" "GET"
           [("timeout", PInt 1); ("headers", PDict [("X-Trace", PStr "1")])]
           (fresh empty_token)).
Defined.

Lemma request_encodes_data_only_witness :
  exists req,
    wire (snd (@_request stub_runtime "http://host/x" "GET"
                 [("params", PDict [("page", PInt 2)]); ("data", PNone);
                  ("headers", PDict [("X-Trace", PStr "1")])]
                 (fresh anonymous)))
    = ([] ++ [req])%list /\
    dict_get "data" (req_kwargs req) = Some (PStr "null") /\
    dict_get "params" (req_kwargs req) = Some (PDict [("page", PInt 2)]).
Proof.
  destruct (@request_encodes_data_only stub_runtime "http://host/x" "GET"
              [("params", PDict [("page", PInt 2)]); ("data", PNone);
               ("headers", PDict [("X-Trace", PStr "1")])]
              (fresh anonymous))
    as (req & Hw & _ & _ & Hd & Ho).
  exists req. split; [exact Hw|]. split; [exact Hd|].
  rewrite Ho by discriminate. reflexivity.
Defined.

Lemma create_incident_missing_field_witness :
  @sensu_cachet.create_incident stub_runtime (PStr "http://host/api/v1") PNone
    [("name", PStr "Incident: cpu"); ("component_id", PInt 3);
     ("message", PStr "M"); ("status", PInt 2)] []
  = (Raise (KeyError "component_status"), []).
Proof.
  exact (@create_incident_missing_field stub_runtime (PStr "http://host/api/v1")
           PNone
           [("name", PStr "Incident: cpu"); ("component_id", PInt 3);
            ("message", PStr "M"); ("status", PInt 2)] []
           "component_status" eq_refl).
Defined.

Lemma create_incident_posts_witness :
  exists req,
    snd (@sensu_cachet.create_incident stub_runtime (PStr "http://host/api/v1")
           (PStr "t")
           [("visible", PBool false); ("status", PInt 2); ("name", PStr "N");
            ("message", PStr "M")] [])
    = ([] ++ [req])%list /\
    req_method req = "POST" /\
    req_url req = "http://host/api/v1/incidents" /\
    header "X-Cachet-Token" req = Some (PStr "t") /\
    json_body_of req
    = Some (PStr (json_encode None 0
                    (PDict [("name", PStr "N"); ("message", PStr "M");
                            ("status", PInt 2); ("visible", PBool true);
                            ("notify", PBool false)]))).
Proof.
  exact (@create_incident_posts stub_runtime (PStr "http://host/api/v1") (PStr "t")
           [("visible", PBool false); ("status", PInt 2); ("name", PStr "N");
            ("message", PStr "M")] [] eq_refl).
Defined.

Lemma get_component_result_witness :
  fst (@sensu_cachet.get_component stub_runtime stub_loads
         (PStr "http://host/api/v1") (PInt 42) [])
  = Returned (PDict [("id", PInt 42); ("name", PStr "X")]) /\
  exists msg,
    fst (@sensu_cachet.get_component blank_runtime stub_loads
           (PStr "http://host/api/v1") (PInt 42) [])
    = Raised (TypeError msg).
Proof.
  split.
  - exact (@get_component_result stub_runtime stub_loads (PStr "http://host/api/v1")
             (PInt 42) []
             (mk_response 200 (json_encode None 0 echo_body) (Some echo_body))
             eq_refl (fun _ => eq_refl)).
  - exact (@get_component_result blank_runtime stub_loads (PStr "http://host/api/v1")
             (PInt 42) [] (mk_response 200 EmptyString None)
             eq_refl (fun _ => eq_refl)).
Defined.

Lemma keyword_f_collides_witness :
  @invoke stub_runtime
    (Post RComponents [("f", PInt 1); ("name", PStr "X"); ("status", PInt 1)])
    (fresh authenticated)
  = (Raise KeywordCollision, fresh authenticated).
Proof.
  exact (@keyword_f_collides stub_runtime
           (Post RComponents [("f", PInt 1); ("name", PStr "X"); ("status", PInt 1)])
           (fresh authenticated) eq_refl).
Defined.
